(** * webcompat/api/endpoints.py: the issue-API proxy dispatcher

    A shallow embedding of the Flask blueprint [api_bp].  Every view is a
    computation in a small monad that threads the journal of outbound
    [api_request] calls and ends in a returned response, an [abort(code)] or
    an uncaught Python exception.  The collaborators that are imported from
    other modules ([api_request]'s transport, [json.loads],
    [get_html_comments], [get_response_headers], [get_comment_data],
    [normalize_api_params]) and [app.config] are section variables.  The
    [limiter.limit] decorator of [get_search_results] acts before the body
    of the view and is outside the embedding. *)

From Stdlib Require Import ZArith Ascii String List Lia.
From stdpp Require Import base strings gmap list pretty.

Set Warnings "-register-all".
Local Open Scope Z_scope.

(** ** Python values *)

(** A Python float that [json.loads] can produce: a finite binary float is
    [m * 2^e] for integers [m] and [e]; [Infinity], [-Infinity] and [NaN]
    are accepted literals. *)
Inductive pyfloat : Type :=
  | FFinite (m e : Z)
  | FInf (negative : bool)
  | FNaN.

(** The values met by the views: decoded JSON ([None], [bool], [int],
    [float], [str], [list], [dict] with string keys) and tuples. *)
Inductive pyval : Type :=
  | VNone
  | VBool (b : bool)
  | VInt (z : Z)
  | VFloat (f : pyfloat)
  | VStr (s : string)
  | VList (l : list pyval)
  | VTuple (l : list pyval)
  | VDict (d : gmap string pyval).

Inductive exn : Type :=
  | KeyError (key : string)
  | TypeError
  | ValueError.

(** What a Python call ends in: a value, [abort(code)] or an exception that
    nothing in the view catches. *)
Inductive outcome (A : Type) : Type :=
  | Return (a : A)
  | Abort (code : Z)
  | Raise (e : exn).

Arguments Return {A} a.
Arguments Abort {A} code.
Arguments Raise {A} e.

(** [float == int] compares the exact mathematical values. *)
Definition pyfloat_eq_int (f : pyfloat) (z : Z) : bool :=
  match f with
  | FFinite m e => if 0 <=? e then m * 2 ^ e =? z else m =? z * 2 ^ (- e)
  | FInf _ | FNaN => false
  end.

(** [v == z] for an [int] [z]: [bool] is a subclass of [int], floats compare
    by value, every other type is unequal to an [int]. *)
Definition py_eq_int (v : pyval) (z : Z) : bool :=
  match v with
  | VBool b => Z.b2z b =? z
  | VInt n => n =? z
  | VFloat f => pyfloat_eq_int f z
  | _ => false
  end.

(** [v == s] for a [str] [s]. *)
Definition py_eq_str (v : pyval) (s : string) : bool :=
  match v with
  | VStr t => bool_decide (t = s)
  | _ => false
  end.

(** [v[key]] for a [str] key: only a [dict] can be indexed by a string. *)
Definition py_getitem (v : pyval) (key : string) : outcome pyval :=
  match v with
  | VDict d =>
      match d !! key with
      | Some x => Return x
      | None => Raise (KeyError key)
      end
  | _ => Raise TypeError
  end.

(** [len(v)]. *)
Definition py_len (v : pyval) : outcome Z :=
  match v with
  | VStr s => Return (Z.of_nat (String.length s))
  | VList l | VTuple l => Return (Z.of_nat (length l))
  | VDict d => Return (Z.of_nat (size d))
  | _ => Raise TypeError
  end.

(** [t[lo:hi]] on the items of a tuple, for [0 <= lo <= hi]. *)
Definition py_slice (lo hi : nat) (items : list pyval) : list pyval :=
  take (hi - lo) (drop lo items).

(** ** Query parameters: Werkzeug's [MultiDict] *)

(** A value of a query parameter: the strings of [request.args] and the
    integers the views add. *)
Inductive param : Type :=
  | PStr (s : string)
  | PInt (z : Z).

#[global] Instance param_eq_dec : EqDecision param.
Proof. solve_decision. Defined.

(** [request.args] is Werkzeug's [ImmutableMultiDict] and
    [request.args.copy()] a mutable [MultiDict] (the views call its [add],
    which a plain dict does not have): a dict from a key to the list of its
    values, in the order they were given. *)
Abbreviation MultiDict := (gmap string (list param)).

(** [bool(v)] of a parameter value or [None]. *)
Definition truthy (v : option param) : bool :=
  match v with
  | None => false
  | Some (PStr s) => negb (bool_decide (s = ""%string))
  | Some (PInt z) => negb (z =? 0)
  end.

(** [bool(d)]: a dict is true when it has a key. *)
Definition md_truthy (d : MultiDict) : bool := negb (Nat.eqb (size d) 0).

Definition md_copy (d : MultiDict) : MultiDict := d.

(** [d.getlist(key)]. *)
Definition md_getlist (key : string) (d : MultiDict) : list param :=
  default [] (d !! key).

(** [d.get(key)]: the first value of the key, [None] without one. *)
Definition md_get (key : string) (d : MultiDict) : option param :=
  head (md_getlist key d).

(** [d[key] = value]: the key's list becomes [[value]]. *)
Definition md_setitem (key : string) (value : param) (d : MultiDict) : MultiDict :=
  <[key := [value]]> d.

(** [d.add(key, value)]: appends to the key's list. *)
Definition md_add (key : string) (value : param) (d : MultiDict) : MultiDict :=
  <[key := md_getlist key d ++ [value]]> d.

(** [d.update(mapping)] for a plain dict [mapping], given as its items.
    Unlike [dict.update], [MultiDict.update] "extends rather than replaces
    existing key lists": it calls [MultiDict.add] for every item. *)
Definition md_update (mapping : list (string * param)) (d : MultiDict) : MultiDict :=
  foldl (fun acc kv => md_add kv.1 kv.2 acc) d mapping.

(** ** Requests, responses and the outbound journal *)

Abbreviation Headers := (gmap string string).

(** The tuple [(content, status_code, headers)] [api_request] returns and a
    view hands to Flask. *)
Record Response : Type := mkResponse {
  content : string;
  status_code : Z;
  headers : Headers
}.

(** The tuple as a Python value, for index and slice expressions. *)
Definition response_items (r : Response) : list pyval :=
  [VStr (content r); VInt (status_code r); VDict (VStr <$> headers r)].

(** [g.user] is [None] or a user object, which is always true. *)
Record User : Type := mkUser { user_id : Z }.

(** One [api_request(method, path, params=None, data=None, mime_type=None)]. *)
Record Call : Type := mkCall {
  c_method : string;
  c_path : string;
  c_params : option MultiDict;
  c_data : option string;
  c_mime_type : option string
}.

(** The part of Flask's request context the views read. *)
Record Request : Type := mkRequest {
  g_user : option User;
  method : string;
  args : MultiDict;
  data : string
}.

(** A view: from the journal of outbound calls so far to an outcome and the
    journal after it. *)
Definition M (A : Type) : Type := list Call -> outcome A * list Call.

Definition ret {A} (a : A) : M A := fun log => (Return a, log).

Definition bind {A B} (m : M A) (k : A -> M B) : M B :=
  fun log =>
    match m log with
    | (Return a, log') => k a log'
    | (Abort code, log') => (Abort code, log')
    | (Raise e, log') => (Raise e, log')
    end.

Definition abort {A} (code : Z) : M A := fun log => (Abort code, log).

(** A pure Python call that may raise. *)
Definition lift {A} (o : outcome A) : M A := fun log => (o, log).

Notation "x <- m ;; k" := (bind m (fun x => k))
  (at level 100, m at next level, right associativity).

(** [app.config]. *)
Record StatusDefinition : Type := mkStatus { sd_id : Z; sd_state : string }.

Record AppConfig : Type := mkConfig {
  ISSUES_REPO_URI : string;
  PRIVATE_REPO_URI : string;
  AUTOCLOSED_MILESTONE_ID : Z;
  STATUSES : gmap string StatusDefinition;
  OPEN_STATUSES : list string
}.

(** ** The views *)

Section Endpoints.

Variable config : AppConfig.

(** The transport behind [api_request]: what the upstream API answers to
    a call made with the caller's credentials ([g.user]) or the proxy
    bot's; it may itself abort or raise. *)
Variable upstream : option User -> Call -> outcome Response.

Variable json_loads : string -> outcome pyval.
Variable get_comment_data : string -> outcome string.
Variable get_html_comments : Response -> outcome Response.
Variable get_response_headers : Response -> string -> Headers.
Variable normalize_api_params : MultiDict -> MultiDict.

Definition JSON_MIME_HTML : string := "application/vnd.github.v3.html+json".
Definition HTML_MIME : string := "text/html".
Definition ISSUES_PATH : string := ISSUES_REPO_URI config.
Definition PRIVATE_ISSUES_PATH : string := PRIVATE_REPO_URI config.

(** [ISSUES_PATH[:-7]]: all but the last seven characters, the empty
    string when there are no more than seven. *)
Definition REPO_PATH : string :=
  String.substring 0 (String.length ISSUES_PATH - 7) ISSUES_PATH.

(** [api_request]: one outbound call, written to the journal. *)
Definition api_request (req : Request) (meth path : string)
    (params : option MultiDict) (body mime_type : option string) : M Response :=
  fun log =>
    let call := mkCall meth path params body mime_type in
    (upstream (g_user req) call, log ++ [call]).

(** ['repos/{0}/{1}'.format(ISSUES_PATH, number)]; the route converter
    [<int:number>] yields a natural number. *)
Definition issue_path (number : N) : string :=
  "repos/" +:+ ISSUES_PATH +:+ "/" +:+ pretty number.

Definition proxy_issue (req : Request) (number : N) : M Response :=
  api_request req "get" (issue_path number) None None (Some JSON_MIME_HTML).

(** [[(STATUSES[status]['id'], STATUSES[status]['state'])
      for status in STATUSES]]. *)
Definition valid_statuses : list (Z * string) :=
  (fun kv => (sd_id kv.2, sd_state kv.2)) <$> map_to_list (STATUSES config).

(** [data_check in valid_statuses]: some entry is [==] to the pair. *)
Definition data_check_in (data_check : pyval * pyval)
    (statuses : list (Z * string)) : bool :=
  existsb (fun st => py_eq_int data_check.1 st.1 && py_eq_str data_check.2 st.2)
          statuses.

Definition edit_issue (req : Request) (number : N) : M Response :=
  match g_user req with
  | None => abort 403
  | Some _ =>
      let path := issue_path number in
      patch_data <- lift (json_loads (data req)) ;;
      milestone <- lift (py_getitem patch_data "milestone") ;;
      state <- lift (py_getitem patch_data "state") ;;
      let data_check := (milestone, state) in
      (* [and] evaluates [len(patch_data)] only after the membership *)
      if data_check_in data_check valid_statuses then
        n <- lift (py_len patch_data) ;;
        if n =? 2 then
          r <- api_request req "patch" path None (Some (data req)) None ;;
          ret (mkResponse (content r) (status_code r)
                          {["content-type" := JSON_MIME_HTML]})
        else abort 403
      else abort 403
  end.

(** [d[key]] on a [MultiDict]: a missing key is a [BadRequestKeyError],
    which Flask answers with 400. *)
Definition md_getitem (key : string) (d : MultiDict) : M param :=
  match md_get key d with
  | Some v => ret v
  | None => abort 400
  end.

(** [v + s] for a [str] [s]. *)
Definition param_add_str (v : param) (s : string) : outcome param :=
  match v with
  | PStr t => Return (PStr (t +:+ s))
  | PInt _ => Raise TypeError
  end.

(** [params or fallback]: [None] and the empty dict are false. *)
Definition params_or (params : option MultiDict) (fallback : MultiDict) : MultiDict :=
  match params with
  | Some p => if md_truthy p then p else fallback
  | None => fallback
  end.

(** [query_string or fallback]. *)
Definition query_or (query_string fallback : option param) : option param :=
  if truthy query_string then query_string else fallback.

Definition get_search_results (req : Request) (query_string : option param)
    (params : option MultiDict) : M Response :=
  let params := params_or params (md_copy (args req)) in
  let query_string := query_or query_string (md_get "q" params) in
  if negb (truthy query_string) then abort 404
  else
    match query_string with
    | None => abort 404 (* not reached: [None] is false *)
    | Some query_string =>
        query_string <- lift (param_add_str query_string (" repo:" +:+ REPO_PATH)) ;;
        let params := md_setitem "q" query_string params in
        q <- md_getitem "q" params ;;
        q <- lift (param_add_str q " is:issue") ;;
        let params := md_setitem "q" q params in
        let params := normalize_api_params params in
        let path := "search/issues" in
        api_request req "get" path (Some params) None (Some JSON_MIME_HTML)
    end.

Definition proxy_issues (req : Request) : M Response :=
  let params := md_copy (args req) in
  if bool_decide (is_Some (g_user req)) && truthy (md_get "q" params) then
    get_search_results req (md_get "q" params) (Some params)
  else if truthy (md_get "q" params) then abort 404
  else
    let path := "repos/" +:+ ISSUES_PATH in
    api_request req "get" path (Some params) None None.

Definition proxy_autoclosed (req : Request) : M Response :=
  let params := md_copy (args req) in
  let params := md_add "milestone" (PInt (AUTOCLOSED_MILESTONE_ID config)) params in
  match g_user req with
  | None => abort 404
  | Some _ =>
      let path := "repos/" +:+ PRIVATE_ISSUES_PATH in
      api_request req "get" path (Some params) None None
  end.

Definition get_user_activity_issues (req : Request)
    (username parameter : string) : M Response :=
  match g_user req with
  | None => abort 401
  | Some _ =>
      let params := md_copy (args req) in
      let params := md_setitem "state" (PStr "all") params in
      let params :=
        if bool_decide (parameter = "needsinfo"%string) then
          md_setitem "labels" (PStr ("status-needsinfo-" +:+ username)) params
        else md_setitem parameter (PStr username) params in
      let path := "repos/" +:+ ISSUES_PATH in
      api_request req "get" path (Some params) None None
  end.

Definition get_issue_category (req : Request) (issue_category : string)
    : M Response :=
  let category_list := OPEN_STATUSES config in
  let issues_path := "repos/" +:+ ISSUES_PATH in
  let params := md_copy (args req) in
  if bool_decide (issue_category ∈ category_list) then
    match STATUSES config !! issue_category with
    | None => lift (Raise (KeyError issue_category))
    | Some st =>
        let params := md_add "milestone" (PInt (sd_id st)) params in
        api_request req "get" issues_path (Some params) None None
    end
  else if bool_decide (issue_category = "closed"%string) then
    let params := md_setitem "state" (PStr "closed") params in
    api_request req "get" issues_path (Some params) None None
  else abort 404.

Definition comments_path (number : N) : string :=
  "repos/" +:+ ISSUES_PATH +:+ "/" +:+ pretty number +:+ "/comments".

Definition proxy_comments (req : Request) (number : N) : M Response :=
  let params := md_copy (args req) in
  let path := comments_path number in
  if bool_decide (method req = "POST"%string)
     && bool_decide (is_Some (g_user req)) then
    comment <- lift (get_comment_data (data req)) ;;
    new_comment <- api_request req "post" path (Some params) (Some comment)
                               (Some JSON_MIME_HTML) ;;
    lift (get_html_comments new_comment)
  else
    let params := md_update [("per_page"%string, PInt 100)] params in
    comments_data <- api_request req "get" path (Some params) None
                                 (Some JSON_MIME_HTML) ;;
    (* [comments_data[1:2]] is the one-element tuple [(status_code,)] *)
    let comments_status := VTuple (py_slice 1 2 (response_items comments_data)) in
    if negb (py_eq_int comments_status 304) then
      lift (get_html_comments comments_data)
    else
      ret (mkResponse "" 304 (get_response_headers comments_data HTML_MIME)).

Definition modify_labels (req : Request) (number : N) : M Response :=
  match g_user req with
  | Some _ =>
      let path := "repos/" +:+ ISSUES_PATH +:+ "/" +:+ pretty number +:+ "/labels" in
      api_request req "put" path None (Some (data req)) None
  | None => abort 403
  end.

Definition get_repo_labels (req : Request) : M Response :=
  let params := md_copy (args req) in
  let path := "repos/" +:+ REPO_PATH +:+ "/labels" in
  api_request req "get" path (Some params) None None.

End Endpoints.

(** Running a pure continuation on an outcome, as [bind] does. *)
Definition obind {A B} (o : outcome A) (k : A -> outcome B) : outcome B :=
  match o with
  | Return a => k a
  | Abort code => Abort code
  | Raise e => Raise e
  end.

(** ** Qualifiers of a search query *)

(** The number of positions of [s] at which [pat] starts. *)
Fixpoint occurrences (pat s : string) : nat :=
  ((if String.prefix pat s then 1 else 0) +
   match s with
   | EmptyString => 0
   | String _ s' => occurrences pat s'
   end)%nat.

Fixpoint has_space (s : string) : bool :=
  match s with
  | EmptyString => false
  | String c s' => bool_decide (c = " "%char) || has_space s'
  end.

(** ** A sample deployment *)

Definition sample_config : AppConfig :=
  {| ISSUES_REPO_URI := "org/repo/issues";
     PRIVATE_REPO_URI := "org/repo-private/issues";
     AUTOCLOSED_MILESTONE_ID := 8;
     STATUSES := {[ "needsinfo"%string := mkStatus 1 "open";
                    "actionable"%string := mkStatus 2 "open";
                    "fixed"%string := mkStatus 3 "closed" ]};
     OPEN_STATUSES := ["needsinfo"%string; "actionable"%string] |}.

(** An upstream that answers every call with the same response. *)
Definition sample_upstream (r : Response) : option User -> Call -> outcome Response :=
  fun _ _ => Return r.

Definition ok_response : Response := mkResponse "[]" 200 ∅.

Definition not_modified : Response :=
  mkResponse "" 304 {[ "etag"%string := "W/1"%string ]}.

(** A decoder that knows a few request bodies (the double quotes of JSON are
    written as single quotes here). *)
Definition sample_json_loads (body : string) : outcome pyval :=
  if bool_decide (body = "{'milestone': 2, 'state': 'open'}"%string) then
    Return (VDict {[ "milestone"%string := VInt 2; "state"%string := VStr "open" ]})
  else if bool_decide (body = "{'milestone': 2, 'state': 'closed'}"%string) then
    Return (VDict {[ "milestone"%string := VInt 2; "state"%string := VStr "closed" ]})
  else if bool_decide (body = "{'milestone': 2, 'state': 'open', 'extra': 1}"%string) then
    Return (VDict {[ "milestone"%string := VInt 2; "state"%string := VStr "open";
                     "extra"%string := VInt 1 ]})
  else if bool_decide (body = "{'milestone': 2}"%string) then
    Return (VDict {[ "milestone"%string := VInt 2 ]})
  else if bool_decide (body = "[2, 'open']"%string) then
    Return (VList [VInt 2; VStr "open"])
  else Raise ValueError.

Definition sample_get_comment_data (body : string) : outcome string := Return body.

Definition sample_get_html_comments (r : Response) : outcome Response :=
  Return (mkResponse ("<div>" +:+ content r +:+ "</div>") 200
                     {[ "content-type"%string := "text/html"%string ]}).

Definition sample_get_response_headers (r : Response) (mime : string) : Headers :=
  <["content-type"%string := mime]> (headers r).

Definition sample_user : User := mkUser 1.

(** Some requests: anonymous and authenticated, with and without params. *)
Definition anonymous_get : Request := mkRequest None "GET" ∅ "".

Definition anonymous_get_per_page_5 : Request :=
  mkRequest None "GET" {[ "per_page"%string := [PStr "5"] ]} "".

Definition anonymous_post : Request := mkRequest None "POST" ∅ "{'body': 'hi'}".

Definition alice_get : Request := mkRequest (Some sample_user) "GET" ∅ "".

Definition alice_post : Request :=
  mkRequest (Some sample_user) "POST" ∅ "{'body': 'hi'}".

Definition alice_get_milestone_3 : Request :=
  mkRequest (Some sample_user) "GET"
            {[ "milestone"%string := [PStr "3"]; "page"%string := [PStr "2"] ]} "".

(** A configuration whose list of open statuses names a status that the
    table of statuses lacks. *)
Definition stale_config : AppConfig :=
  {| ISSUES_REPO_URI := "org/repo/issues";
     PRIVATE_REPO_URI := "org/repo-private/issues";
     AUTOCLOSED_MILESTONE_ID := 8;
     STATUSES := {[ "needsinfo"%string := mkStatus 1 "open" ]};
     OPEN_STATUSES := ["needsinfo"%string; "actionable"%string] |}.

(** A decoder for one body with a boolean milestone. *)
Definition bool_json_loads (body : string) : outcome pyval :=
  if bool_decide (body = "{'milestone': true, 'state': 'open'}"%string) then
    Return (VDict {[ "milestone"%string := VBool true; "state"%string := VStr "open" ]})
  else Raise ValueError.

Definition alice_get_state_open : Request :=
  mkRequest (Some sample_user) "GET" {[ "state"%string := [PStr "open"] ]} "".

Definition anonymous_search : Request :=
  mkRequest None "GET" {[ "q"%string := [PStr "foo"] ]} "".

Definition anonymous_search_issues_only : Request :=
  mkRequest None "GET" {[ "q"%string := [PStr "foo is:issue"] ]} "".

Definition anonymous_empty_q : Request :=
  mkRequest None "GET" {[ "q"%string := [PStr ""] ]} "".

Definition alice_search : Request :=
  mkRequest (Some sample_user) "GET" {[ "q"%string := [PStr "foo"] ]} "".

(** A [normalize_api_params] with nothing to rename. *)
Definition sample_normalize (params : MultiDict) : MultiDict := params.

Definition alice_patch (body : string) : Request :=
  mkRequest (Some sample_user) "PATCH" ∅ body.

Definition sample_edit_issue : Request -> N -> M Response :=
  edit_issue sample_config (sample_upstream ok_response) sample_json_loads.

Definition sample_proxy_comments (up : Response) : Request -> N -> M Response :=
  proxy_comments sample_config (sample_upstream up) sample_get_comment_data
                 sample_get_html_comments sample_get_response_headers.

(** The one upstream call of the GET branch of [proxy_comments]. *)
Definition comments_get_call (config : AppConfig) (req : Request) (number : N) : Call :=
  mkCall "get" (comments_path config number)
         (Some (md_add "per_page" (PInt 100) (args req)))
         None (Some JSON_MIME_HTML).

(** The one upstream call of the views that list issues of the repository. *)
Definition issues_list_call (config : AppConfig) (params : MultiDict) : Call :=
  mkCall "get" ("repos/" +:+ ISSUES_PATH config) (Some params) None None.

(** The query string [get_search_results] builds from the query [q]. *)
Definition search_query (config : AppConfig) (q : string) : string :=
  (q +:+ " repo:" +:+ REPO_PATH config) +:+ " is:issue".

(** The one upstream call of [get_search_results]. *)
Definition search_call (config : AppConfig)
    (normalize_api_params : MultiDict -> MultiDict)
    (q : string) (params : MultiDict) : Call :=
  mkCall "get" "search/issues"
         (Some (normalize_api_params
                  (md_setitem "q" (PStr (search_query config q)) params)))
         None (Some JSON_MIME_HTML).

(** The one upstream call of [edit_issue]: the raw body, as a PATCH. *)
Definition edit_patch_call (config : AppConfig) (req : Request) (number : N) : Call :=
  mkCall "patch" (issue_path config number) None (Some (data req)) None.

(** What [edit_issue] returns for the upstream's answer [r]. *)
Definition edit_response (r : Response) : outcome Response :=
  Return (mkResponse (content r) (status_code r)
                     {[ "content-type"%string := JSON_MIME_HTML ]}).

(** The pair [(milestone, state)] equals, in Python's sense, the id and the
    state of some configured status. *)
Definition status_pair_allowed (config : AppConfig) (milestone state : pyval) : Prop :=
  exists name st,
    STATUSES config !! name = Some st /\
    py_eq_int milestone (sd_id st) = true /\
    py_eq_str state (sd_state st) = true.

(** ** What a view adds to the journal *)

(** The view leaves the journal as it found it. *)
Definition adds_none {A} (m : M A) : Prop :=
  forall log, (m log).2 = log.

(** The view keeps the journal it found and adds at most one call, which
    satisfies [Q]. *)
Definition adds_at_most_one {A} (Q : Call -> Prop) (m : M A) : Prop :=
  forall log, exists calls,
    (m log).2 = log ++ calls /\ (length calls <= 1)%nat /\ Forall Q calls.

(** The view either makes no call or makes one and ends in exactly what the
    upstream answered to it. *)
Definition relays_upstream (upstream : option User -> Call -> outcome Response)
    (req : Request) (m : M Response) : Prop :=
  forall log,
    (m log).2 = log \/
    exists call, m log = (upstream (g_user req) call, log ++ [call]).

(** The calls a run added to the journal it started from. *)
Definition calls_made {A} (m : M A) (log : list Call) : list Call :=
  drop (length log) (m log).2.

(** * Properties *)

(** ** [MultiDict] operations *)

Lemma md_getlist_setitem key value (d : MultiDict) :
  md_getlist key (md_setitem key value d) = [value].
Proof. unfold md_getlist, md_setitem. by rewrite lookup_insert_eq. Qed.

Lemma md_getlist_setitem_ne key key' value (d : MultiDict) :
  key ≠ key' -> md_getlist key' (md_setitem key value d) = md_getlist key' d.
Proof. intros Hne. unfold md_getlist, md_setitem. by rewrite lookup_insert_ne. Qed.

Lemma md_getlist_add key value (d : MultiDict) :
  md_getlist key (md_add key value d) = md_getlist key d ++ [value].
Proof. unfold md_add. unfold md_getlist at 1. by rewrite lookup_insert_eq. Qed.

Lemma md_getlist_add_ne key key' value (d : MultiDict) :
  key ≠ key' -> md_getlist key' (md_add key value d) = md_getlist key' d.
Proof. intros Hne. unfold md_getlist, md_add. by rewrite lookup_insert_ne. Qed.

Lemma md_get_setitem key value (d : MultiDict) :
  md_get key (md_setitem key value d) = Some value.
Proof. unfold md_get. by rewrite md_getlist_setitem. Qed.

(** [add] leaves the value [get] reports alone when the key has one. *)
Lemma md_get_add_present key value v (d : MultiDict) :
  md_get key d = Some v -> md_get key (md_add key value d) = Some v.
Proof.
  unfold md_get. rewrite md_getlist_add.
  destruct (md_getlist key d); simpl; [discriminate | done].
Qed.

Lemma md_get_add_absent key value (d : MultiDict) :
  md_get key d = None -> md_get key (md_add key value d) = Some value.
Proof.
  unfold md_get. rewrite md_getlist_add.
  destruct (md_getlist key d); simpl; [done | discriminate].
Qed.

Lemma md_setitem_setitem key v w (d : MultiDict) :
  md_setitem key w (md_setitem key v d) = md_setitem key w d.
Proof. unfold md_setitem. apply insert_insert_eq. Qed.

Lemma md_update_singleton key value (d : MultiDict) :
  md_update [(key, value)] d = md_add key value d.
Proof. reflexivity. Qed.

(** ** Comments: [proxy_comments] *)

Section CommentsSpec.

Context (config : AppConfig).
Context (upstream : option User -> Call -> outcome Response).
Context (get_comment_data : string -> outcome string).
Context (get_html_comments : Response -> outcome Response).
Context (get_response_headers : Response -> string -> Headers).

(** A tuple never equals an [int], whatever its items. *)
Lemma tuple_slice_ne_int (r : Response) (z : Z) :
  negb (py_eq_int (VTuple (py_slice 1 2 (response_items r))) z) = true.
Proof. reflexivity. Qed.

(** Whoever is not an authenticated POST runs the GET branch, and the GET
    branch always renders: its journal grows by [comments_get_call] and the
    answer goes to [get_html_comments]. *)
Lemma proxy_comments_get_branch req number log :
  method req ≠ "POST"%string \/ g_user req = None ->
  proxy_comments config upstream get_comment_data get_html_comments
    get_response_headers req number log =
    (obind (upstream (g_user req) (comments_get_call config req number))
           get_html_comments,
     log ++ [comments_get_call config req number]).
Proof.
  intros Hget. unfold proxy_comments.
  assert (bool_decide (method req = "POST"%string)
          && bool_decide (is_Some (g_user req)) = false) as ->.
  { destruct Hget as [Hm | Hu].
    - by rewrite bool_decide_eq_false_2.
    - rewrite Hu. rewrite (bool_decide_eq_false_2 (is_Some None)).
      + apply andb_false_r.
      + by intros [? ?]. }
  rewrite md_update_singleton.
  unfold bind, api_request, md_copy. fold (comments_get_call config req number).
  destruct (upstream (g_user req) (comments_get_call config req number)) as [r | code | e];
    simpl; try reflexivity.
Qed.

(** C1 (the code departs from the claim).  When the upstream answers a
    comments GET with status 304, [proxy_comments] still hands the answer to
    [get_html_comments]: [comments_data[1:2]] is a one-element tuple, never
    equal to [304], so the branch that returns the empty body with status
    304 and the relayed headers is not taken. *)
Theorem comments_not_modified_is_rendered req number log r :
  method req ≠ "POST"%string \/ g_user req = None ->
  upstream (g_user req) (comments_get_call config req number) = Return r ->
  status_code r = 304 ->
  proxy_comments config upstream get_comment_data get_html_comments
    get_response_headers req number log =
    (get_html_comments r, log ++ [comments_get_call config req number]).
Proof.
  intros Hget Hup _. rewrite proxy_comments_get_branch by exact Hget.
  by rewrite Hup.
Qed.

(** C7 (the code departs from the claim).  [params.update] appends 100 to
    the values of [per_page]; when the caller supplied a value, that value
    stays the one the outbound params report for [per_page]. *)
Theorem comments_per_page_keeps_caller_value req number log v :
  method req ≠ "POST"%string \/ g_user req = None ->
  md_get "per_page" (args req) = Some v ->
  exists out p,
    proxy_comments config upstream get_comment_data get_html_comments
    get_response_headers req number log =
      (out, log ++ [mkCall "get" (comments_path config number) (Some p) None
                           (Some JSON_MIME_HTML)]) /\
    md_getlist "per_page" p = md_getlist "per_page" (args req) ++ [PInt 100] /\
    md_get "per_page" p = Some v.
Proof.
  intros Hget Hv. eexists _, _. split; [| split].
  - rewrite proxy_comments_get_branch by exact Hget. reflexivity.
  - apply md_getlist_add.
  - by apply md_get_add_present.
Qed.

(** C3, as amended.  An unauthenticated POST to the comments route is served
    with GET semantics: exactly one upstream call, a GET of the comments
    with 100 added to [per_page], whose answer is rendered; no POST goes
    upstream and the route produces no rejection code of its own. *)
Theorem comments_post_unauthenticated_is_get req number log :
  method req = "POST"%string ->
  g_user req = None ->
  proxy_comments config upstream get_comment_data get_html_comments
    get_response_headers req number log =
    (obind (upstream None (comments_get_call config req number)) get_html_comments,
     log ++ [comments_get_call config req number]) /\
  c_method (comments_get_call config req number) = "get"%string.
Proof.
  intros _ Hu. split; [| reflexivity].
  rewrite proxy_comments_get_branch by (by right). by rewrite Hu.
Qed.

End CommentsSpec.

(** At the failing input of C1: the upstream says 304 and the view answers
    with a rendered body and not with the empty 304 response. *)
Lemma comments_not_modified_is_rendered_witness :
  sample_proxy_comments not_modified anonymous_get 7 [] =
    (Return (mkResponse "<div></div>" 200
                        {[ "content-type"%string := "text/html"%string ]}),
     [comments_get_call sample_config anonymous_get 7]) /\
  sample_proxy_comments not_modified anonymous_get 7 [] ≠
    (Return (mkResponse "" 304
                        (sample_get_response_headers not_modified HTML_MIME)),
     [comments_get_call sample_config anonymous_get 7]).
Proof.
  assert (sample_proxy_comments not_modified anonymous_get 7 [] =
          (sample_get_html_comments not_modified,
           [] ++ [comments_get_call sample_config anonymous_get 7])) as Heq.
  { apply (comments_not_modified_is_rendered sample_config
             (sample_upstream not_modified)); [by left | reflexivity | reflexivity]. }
  split; [exact Heq |].
  rewrite Heq. intros Hbad. discriminate Hbad.
Defined.

(** At the failing input of C7: the caller asks for 5 per page and the
    outbound params report 5, with 100 second in the list of values. *)
Lemma comments_per_page_keeps_caller_value_witness :
  exists out p,
    sample_proxy_comments ok_response anonymous_get_per_page_5 7 [] =
      (out, [mkCall "get" "repos/org/repo/issues/7/comments" (Some p) None
                    (Some JSON_MIME_HTML)]) /\
    md_getlist "per_page" p = [PStr "5"; PInt 100] /\
    md_get "per_page" p = Some (PStr "5").
Proof.
  apply (comments_per_page_keeps_caller_value sample_config
           (sample_upstream ok_response) sample_get_comment_data
           sample_get_html_comments sample_get_response_headers
           anonymous_get_per_page_5 7 [] (PStr "5")); [by left | reflexivity].
Defined.

(** C3, counterexample: an anonymous POST is not rejected and does reach the
    upstream, with one GET. *)
Lemma comments_post_unauthenticated_calls_upstream :
  sample_proxy_comments ok_response anonymous_post 7 [] =
    (Return (mkResponse "<div>[]</div>" 200
                        {[ "content-type"%string := "text/html"%string ]}),
     [comments_get_call sample_config anonymous_post 7]) /\
  ~ (exists code,
       sample_proxy_comments ok_response anonymous_post 7 [] = (Abort code, [])).
Proof.
  assert (sample_proxy_comments ok_response anonymous_post 7 [] =
          (sample_get_html_comments ok_response,
           [comments_get_call sample_config anonymous_post 7])) as Heq.
  { unfold sample_proxy_comments.
    rewrite proxy_comments_get_branch by (by right). reflexivity. }
  split; [exact Heq |].
  rewrite Heq. intros [code Hbad]. discriminate Hbad.
Qed.

Lemma comments_post_unauthenticated_is_get_witness :
  sample_proxy_comments ok_response anonymous_post 7 [] =
    (Return (mkResponse "<div>[]</div>" 200
                        {[ "content-type"%string := "text/html"%string ]}),
     [comments_get_call sample_config anonymous_post 7]) /\
  c_method (comments_get_call sample_config anonymous_post 7) = "get"%string.
Proof.
  apply (comments_post_unauthenticated_is_get sample_config
           (sample_upstream ok_response) sample_get_comment_data
           sample_get_html_comments sample_get_response_headers
           anonymous_post 7 []); reflexivity.
Defined.

(** ** Routes closed to anonymous callers *)

Section AnonymousSpec.

Context (config : AppConfig).
Context (upstream : option User -> Call -> outcome Response).
Context (json_loads : string -> outcome pyval).

(** C4.  Without [g.user] the private, user-activity, edit and labels views
    abort with 404, 401, 403 and 403, and the journal of outbound calls is
    the one they started with. *)
Theorem unauthenticated_routes_rejected req number username parameter log :
  g_user req = None ->
  proxy_autoclosed config upstream req log = (Abort 404, log) /\
  get_user_activity_issues config upstream req username parameter log
    = (Abort 401, log) /\
  edit_issue config upstream json_loads req number log = (Abort 403, log) /\
  modify_labels config upstream req number log = (Abort 403, log).
Proof.
  intros Hu.
  unfold proxy_autoclosed, get_user_activity_issues, edit_issue, modify_labels.
  rewrite Hu. repeat split.
Qed.

End AnonymousSpec.

Lemma unauthenticated_routes_rejected_witness :
  proxy_autoclosed sample_config (sample_upstream ok_response) anonymous_get []
    = (Abort 404, []) /\
  get_user_activity_issues sample_config (sample_upstream ok_response)
    anonymous_get "alice" "creator" [] = (Abort 401, []) /\
  edit_issue sample_config (sample_upstream ok_response) sample_json_loads
    anonymous_post 7 [] = (Abort 403, []) /\
  modify_labels sample_config (sample_upstream ok_response) anonymous_post 7 []
    = (Abort 403, []).
Proof.
  destruct (unauthenticated_routes_rejected sample_config
              (sample_upstream ok_response) sample_json_loads
              anonymous_get 7 "alice" "creator" [] eq_refl) as (H1 & H2 & _ & _).
  destruct (unauthenticated_routes_rejected sample_config
              (sample_upstream ok_response) sample_json_loads
              anonymous_post 7 "alice" "creator" [] eq_refl) as (_ & _ & H3 & H4).
  exact (conj H1 (conj H2 (conj H3 H4))).
Defined.

(** ** User activity: [get_user_activity_issues] *)

Section UserActivitySpec.

Context (config : AppConfig).
Context (upstream : option User -> Call -> outcome Response).

(** C9, as amended.  An anonymous caller gets 401 and no call goes out.  An
    authenticated caller causes one call that lists the issues; its params
    hold [state=all] in place of the caller's [state] unless [parameter] is
    ['state'] itself, [labels=status-needsinfo-{username}] when [parameter]
    is ['needsinfo'], and [{parameter}={username}] otherwise. *)
Theorem user_activity_params req username parameter log :
  (g_user req = None ->
   get_user_activity_issues config upstream req username parameter log
     = (Abort 401, log)) /\
  (forall u, g_user req = Some u ->
   exists p,
     get_user_activity_issues config upstream req username parameter log
       = (upstream (Some u) (issues_list_call config p),
          log ++ [issues_list_call config p]) /\
     (parameter ≠ "state"%string -> md_getlist "state" p = [PStr "all"]) /\
     (parameter = "needsinfo"%string ->
      md_getlist "labels" p = [PStr ("status-needsinfo-" +:+ username)]) /\
     (parameter ≠ "needsinfo"%string -> md_getlist parameter p = [PStr username])).
Proof.
  unfold get_user_activity_issues, api_request. split.
  - intros ->. reflexivity.
  - intros u ->. eexists. split; [reflexivity |].
    unfold md_copy. case_bool_decide as Hp.
    + subst parameter. repeat split.
      * intros _. rewrite md_getlist_setitem_ne by discriminate.
        apply md_getlist_setitem.
      * intros _. apply md_getlist_setitem.
      * intros Hne. by destruct Hne.
    + repeat split.
      * intros Hne. rewrite md_getlist_setitem_ne by done.
        apply md_getlist_setitem.
      * intros Heq. by destruct Hp.
      * intros _. apply md_getlist_setitem.
Qed.

End UserActivitySpec.

Lemma user_activity_params_witness :
  get_user_activity_issues sample_config (sample_upstream ok_response)
    anonymous_get "alice" "creator" [] = (Abort 401, []) /\
  (exists p,
     get_user_activity_issues sample_config (sample_upstream ok_response)
       alice_get_state_open "alice" "creator" []
       = (Return ok_response, [issues_list_call sample_config p]) /\
     md_getlist "state" p = [PStr "all"] /\
     md_getlist "creator" p = [PStr "alice"]) /\
  (exists p,
     get_user_activity_issues sample_config (sample_upstream ok_response)
       alice_get_state_open "alice" "needsinfo" []
       = (Return ok_response, [issues_list_call sample_config p]) /\
     md_getlist "state" p = [PStr "all"] /\
     md_getlist "labels" p = [PStr "status-needsinfo-alice"]).
Proof.
  split; [| split].
  - apply (user_activity_params sample_config (sample_upstream ok_response)
             anonymous_get "alice" "creator" []). reflexivity.
  - destruct (proj2 (user_activity_params sample_config
                       (sample_upstream ok_response) alice_get_state_open
                       "alice" "creator" []) sample_user eq_refl)
      as (p & Hrun & Hstate & _ & Hparam).
    exists p. split; [exact Hrun | split].
    + apply Hstate. discriminate.
    + apply Hparam. discriminate.
  - destruct (proj2 (user_activity_params sample_config
                       (sample_upstream ok_response) alice_get_state_open
                       "alice" "needsinfo" []) sample_user eq_refl)
      as (p & Hrun & Hstate & Hlabels & _).
    exists p. split; [exact Hrun | split].
    + apply Hstate. discriminate.
    + apply Hlabels. reflexivity.
Defined.

(** C9, counterexample: for [/issues/alice/state] the outbound params hold
    [state=alice], not [state=all]. *)
Lemma user_activity_state_overwritten :
  exists p,
    get_user_activity_issues sample_config (sample_upstream ok_response)
      alice_get "alice" "state" []
      = (Return ok_response, [issues_list_call sample_config p]) /\
    md_getlist "state" p = [PStr "alice"] /\
    md_get "state" p <> Some (PStr "all").
Proof.
  exists (md_setitem "state" (PStr "alice") (md_setitem "state" (PStr "all") ∅)).
  split; [reflexivity |]. split.
  - apply md_getlist_setitem.
  - rewrite md_get_setitem. discriminate.
Qed.

(** ** Categories: [get_issue_category] *)

Section CategorySpec.

Context (config : AppConfig).
Context (upstream : option User -> Call -> outcome Response).

(** C6.  A category among the configured open statuses causes one call that
    lists the issues, and in its params the milestone id configured for the
    category stands added to the values of [milestone], after those the
    caller gave; failing that, the category ['closed'] causes one such call
    whose params hold [state=closed] in place of any [state] of the caller;
    in both cases every other param goes out as the caller gave it.  Any
    other category aborts with 404 and no call. *)
Theorem issue_category_dispatch req issue_category log :
  (forall st,
     issue_category ∈ OPEN_STATUSES config ->
     STATUSES config !! issue_category = Some st ->
     exists p,
       get_issue_category config upstream req issue_category log
         = (upstream (g_user req) (issues_list_call config p),
            log ++ [issues_list_call config p]) /\
       p = md_add "milestone" (PInt (sd_id st)) (args req) /\
       md_getlist "milestone" p
         = md_getlist "milestone" (args req) ++ [PInt (sd_id st)] /\
       (md_get "milestone" (args req) = None ->
        md_get "milestone" p = Some (PInt (sd_id st))) /\
       (forall key, key ≠ "milestone"%string ->
          md_getlist key p = md_getlist key (args req))) /\
  (issue_category ∉ OPEN_STATUSES config ->
   issue_category = "closed"%string ->
   exists p,
     get_issue_category config upstream req issue_category log
       = (upstream (g_user req) (issues_list_call config p),
          log ++ [issues_list_call config p]) /\
     p = md_setitem "state" (PStr "closed") (args req) /\
     md_getlist "state" p = [PStr "closed"] /\
     md_get "state" p = Some (PStr "closed") /\
     (forall key, key ≠ "state"%string ->
        md_getlist key p = md_getlist key (args req))) /\
  (issue_category ∉ OPEN_STATUSES config ->
   issue_category ≠ "closed"%string ->
   get_issue_category config upstream req issue_category log = (Abort 404, log)).
Proof.
  unfold get_issue_category, md_copy. split; [| split].
  - intros st Hin Hst. rewrite bool_decide_eq_true_2 by exact Hin.
    rewrite Hst. eexists. split; [reflexivity |]. split; [reflexivity |].
    split; [apply md_getlist_add |]. split.
    + apply md_get_add_absent.
    + intros key Hkey. by apply md_getlist_add_ne.
  - intros Hnin Hclosed. rewrite bool_decide_eq_false_2 by exact Hnin.
    rewrite bool_decide_eq_true_2 by exact Hclosed.
    eexists. split; [reflexivity |]. split; [reflexivity |].
    split; [apply md_getlist_setitem |]. split.
    + apply md_get_setitem.
    + intros key Hkey. by apply md_getlist_setitem_ne.
  - intros Hnin Hne. rewrite bool_decide_eq_false_2 by exact Hnin.
    rewrite bool_decide_eq_false_2 by exact Hne. reflexivity.
Qed.

End CategorySpec.

Lemma issue_category_dispatch_witness :
  (exists p,
     get_issue_category sample_config (sample_upstream ok_response)
       alice_get_milestone_3 "needsinfo" []
       = (Return ok_response, [issues_list_call sample_config p]) /\
     md_getlist "milestone" p = [PStr "3"; PInt 1] /\
     md_getlist "page" p = [PStr "2"]) /\
  (exists p,
     get_issue_category sample_config (sample_upstream ok_response)
       anonymous_get "needsinfo" []
       = (Return ok_response, [issues_list_call sample_config p]) /\
     md_get "milestone" p = Some (PInt 1)) /\
  (exists p,
     get_issue_category sample_config (sample_upstream ok_response)
       alice_get_state_open "closed" []
       = (Return ok_response, [issues_list_call sample_config p]) /\
     md_getlist "state" p = [PStr "closed"] /\
     md_get "state" p = Some (PStr "closed")) /\
  get_issue_category sample_config (sample_upstream ok_response)
    anonymous_get "bogus" [] = (Abort 404, []).
Proof.
  split; [| split; [| split]].
  - destruct (proj1 (issue_category_dispatch sample_config
                       (sample_upstream ok_response) alice_get_milestone_3
                       "needsinfo" [])
                    (mkStatus 1 "open"))
      as (p & Hrun & _ & Hmilestone & _ & Hother).
    + apply (bool_decide_eq_true_1 _). reflexivity.
    + reflexivity.
    + exists p. split; [exact Hrun |]. split; [exact Hmilestone |].
      apply (Hother "page"%string). discriminate.
  - destruct (proj1 (issue_category_dispatch sample_config
                       (sample_upstream ok_response) anonymous_get
                       "needsinfo" [])
                    (mkStatus 1 "open"))
      as (p & Hrun & _ & _ & Hget & _).
    + apply (bool_decide_eq_true_1 _). reflexivity.
    + reflexivity.
    + exists p. split; [exact Hrun |]. apply Hget. reflexivity.
  - destruct (proj1 (proj2 (issue_category_dispatch sample_config
                              (sample_upstream ok_response) alice_get_state_open
                              "closed" [])))
      as (p & Hrun & _ & Hstate & Hget & _).
    + apply (bool_decide_eq_false_1 _). reflexivity.
    + reflexivity.
    + exists p. exact (conj Hrun (conj Hstate Hget)).
  - apply (proj2 (proj2 (issue_category_dispatch sample_config
                           (sample_upstream ok_response) anonymous_get "bogus" []))).
    + apply (bool_decide_eq_false_1 _). reflexivity.
    + discriminate.
Defined.

(** ** Occurrences of a qualifier in a query string *)

Lemma append_assoc (a b c : string) : (a +:+ b) +:+ c = a +:+ b +:+ c.
Proof.
  induction a as [| x a IH]; [reflexivity |].
  change (String x ((a +:+ b) +:+ c) = String x (a +:+ b +:+ c)). by rewrite IH.
Qed.

(** A pattern free of spaces cannot reach across a space. *)
Lemma prefix_app_space pat : forall a b,
  has_space pat = false ->
  String.prefix pat (a +:+ " " +:+ b) = String.prefix pat a.
Proof.
  induction pat as [| c pat IH]; intros a b Hsp.
  - by destruct a.
  - simpl in Hsp. apply orb_false_elim in Hsp as [Hc Hpat].
    apply bool_decide_eq_false in Hc.
    destruct a as [| x a].
    + change ("" +:+ " " +:+ b)%string with (String " " b). simpl.
      destruct (ascii_dec c " ") as [Heq | _]; [by destruct Hc | reflexivity].
    + change (String x a +:+ " " +:+ b)%string with (String x (a +:+ " " +:+ b)).
      simpl. destruct (ascii_dec c x); [by apply IH | reflexivity].
Qed.

Lemma prefix_nonempty_nil pat : pat ≠ ""%string -> String.prefix pat "" = false.
Proof. by destruct pat. Qed.

Lemma occurrences_app_space pat a b :
  pat ≠ ""%string -> has_space pat = false ->
  occurrences pat (a +:+ " " +:+ b) = (occurrences pat a + occurrences pat b)%nat.
Proof.
  intros Hne Hsp. induction a as [| x a IH].
  - change ("" +:+ " " +:+ b)%string with (String " " b).
    cbn [occurrences]. rewrite (prefix_nonempty_nil pat Hne).
    change (String " " b) with ("" +:+ " " +:+ b)%string.
    rewrite (prefix_app_space pat "" b Hsp), (prefix_nonempty_nil pat Hne).
    reflexivity.
  - change (String x a +:+ " " +:+ b)%string with (String x (a +:+ " " +:+ b)).
    cbn [occurrences]. rewrite IH.
    change (String x (a +:+ " " +:+ b)) with (String x a +:+ " " +:+ b)%string.
    rewrite (prefix_app_space pat (String x a) b Hsp). lia.
Qed.

Lemma prefix_too_long pat : forall s,
  (String.length s < String.length pat)%nat -> String.prefix pat s = false.
Proof.
  induction pat as [| c pat IH]; intros s Hlen; simpl in Hlen; [lia |].
  destruct s as [| x s]; simpl; [reflexivity |].
  destruct (ascii_dec c x); [| reflexivity]. apply IH. simpl in Hlen. lia.
Qed.

Lemma occurrences_too_long pat s :
  (String.length s < String.length pat)%nat -> occurrences pat s = 0%nat.
Proof.
  induction s as [| x s IH]; intros Hlen; cbn [occurrences].
  - by rewrite prefix_too_long.
  - rewrite prefix_too_long by exact Hlen. rewrite IH; [reflexivity |].
    simpl in Hlen. lia.
Qed.

Lemma prefix_refl pat : String.prefix pat pat = true.
Proof.
  induction pat as [| c pat IH]; simpl; [reflexivity |].
  by destruct (ascii_dec c c).
Qed.

(** A non-empty pattern occurs once in itself. *)
Lemma occurrences_self pat : pat ≠ ""%string -> occurrences pat pat = 1%nat.
Proof.
  destruct pat as [| c pat]; [done | intros _].
  cbn [occurrences]. rewrite prefix_refl.
  rewrite occurrences_too_long; [reflexivity | simpl; lia].
Qed.

(** The query built is the input, a space, the repo qualifier, a space and
    the issue qualifier. *)
Lemma search_query_words config q :
  search_query config q
    = (q +:+ " " +:+ ("repo:" +:+ REPO_PATH config) +:+ " " +:+ "is:issue")%string.
Proof. unfold search_query. by rewrite !append_assoc. Qed.

Lemma has_space_repo_qualifier R :
  has_space R = false -> has_space ("repo:" +:+ R) = false.
Proof. intros HR. simpl. exact HR. Qed.

(** ['is:issue'] in the query built: once more than in the input and the
    repo path together. *)
Lemma occurrences_is_issue config q :
  occurrences "is:issue" (search_query config q)
    = (occurrences "is:issue" q + occurrences "is:issue" (REPO_PATH config) + 1)%nat.
Proof.
  rewrite search_query_words.
  rewrite !occurrences_app_space by done.
  rewrite (occurrences_self "is:issue") by done.
  assert (occurrences "is:issue" ("repo:" +:+ REPO_PATH config)
          = occurrences "is:issue" (REPO_PATH config)) as -> by reflexivity.
  lia.
Qed.

(** ['repo:{REPO_PATH}'] in the query built, for a repo path without a
    space: once more than in the input. *)
Lemma occurrences_repo_qualifier config q :
  has_space (REPO_PATH config) = false ->
  occurrences ("repo:" +:+ REPO_PATH config) (search_query config q)
    = (occurrences ("repo:" +:+ REPO_PATH config) q + 1)%nat.
Proof.
  intros HR. rewrite search_query_words.
  rewrite !occurrences_app_space by (done || by apply has_space_repo_qualifier).
  rewrite occurrences_self by done.
  assert (occurrences ("repo:" +:+ REPO_PATH config) "is:issue" = 0%nat) as ->
    by reflexivity.
  lia.
Qed.

(** ** Search: [get_search_results] and [proxy_issues] *)

Lemma md_get_truthy key v (d : MultiDict) :
  md_get key d = Some v -> md_truthy d = true.
Proof.
  unfold md_get, md_getlist, md_truthy. intros Hget.
  destruct (d !! key) as [vs |] eqn:Hkey; [| discriminate].
  apply negb_true_iff, Nat.eqb_neq. by eapply map_size_ne_0_lookup_2.
Qed.

Lemma truthy_str q : q ≠ ""%string -> truthy (Some (PStr q)) = true.
Proof. intros Hq. simpl. by rewrite bool_decide_eq_false_2. Qed.

Lemma search_path_not_issues_list (path : string) :
  ("search/issues" : string) ≠ ("repos/" +:+ path)%string.
Proof. discriminate. Qed.

Section SearchSpec.

Context (config : AppConfig).
Context (upstream : option User -> Call -> outcome Response).
Context (normalize_api_params : MultiDict -> MultiDict).

(** With a non-empty query string in force, the search view makes its one
    call. *)
Lemma get_search_results_run req query_string params q log :
  query_or query_string (md_get "q" (params_or params (args req)))
    = Some (PStr q) ->
  q ≠ ""%string ->
  get_search_results config upstream normalize_api_params req query_string params log
    = (upstream (g_user req) (search_call config normalize_api_params q (params_or params (args req))),
       log ++ [search_call config normalize_api_params q (params_or params (args req))]).
Proof.
  intros Hq Hne. unfold get_search_results, md_copy. rewrite Hq.
  rewrite (truthy_str q Hne). simpl.
  unfold bind, lift, param_add_str, md_getitem. rewrite md_get_setitem.
  unfold ret. rewrite md_setitem_setitem. reflexivity.
Qed.

(** Whatever its arguments, the search view adds at most a call to
    [search/issues] to the journal. *)
Lemma get_search_results_journal req query_string params log c :
  c ∈ (get_search_results config upstream normalize_api_params req query_string params log).2 ->
  c ∈ log \/ c_path c = "search/issues"%string.
Proof.
  unfold get_search_results, md_copy.
  destruct (query_or query_string (md_get "q" (params_or params (args req))))
    as [[q | z] |] eqn:Hq.
  - destruct (truthy (Some (PStr q))); simpl; [| by left].
    unfold bind, lift, param_add_str, md_getitem. rewrite md_get_setitem.
    unfold ret, api_request. simpl. intros [Hc | Hc]%elem_of_app; [by left |].
    apply list_elem_of_singleton in Hc. subst c. by right.
  - destruct (truthy (Some (PInt z))); simpl; by left.
  - simpl. by left.
Qed.

(** C5, as amended.  For a non-empty query [q] the search view calls
    [search/issues] once, with [q] set to the input followed by
    [' repo:{REPO_PATH}'] and [' is:issue'] before the params are
    normalized.  Each qualifier is appended once and what the input holds
    stays: ['is:issue'] occurs once more than in the input and the repo path
    together, and for a repo path without a space the repo qualifier occurs
    once more than in the input. *)
Theorem search_query_qualifiers req query_string params q log :
  query_or query_string (md_get "q" (params_or params (args req)))
    = Some (PStr q) ->
  q ≠ ""%string ->
  get_search_results config upstream normalize_api_params req query_string params log
    = (upstream (g_user req) (search_call config normalize_api_params q (params_or params (args req))),
       log ++ [search_call config normalize_api_params q (params_or params (args req))]) /\
  search_query config q
    = (q +:+ " repo:" +:+ REPO_PATH config +:+ " is:issue")%string /\
  occurrences "is:issue" (search_query config q)
    = (occurrences "is:issue" q + occurrences "is:issue" (REPO_PATH config) + 1)%nat /\
  (has_space (REPO_PATH config) = false ->
   occurrences ("repo:" +:+ REPO_PATH config) (search_query config q)
     = (occurrences ("repo:" +:+ REPO_PATH config) q + 1)%nat).
Proof.
  intros Hq Hne. split; [by apply get_search_results_run |]. split; [| split].
  - unfold search_query. by rewrite !append_assoc.
  - apply occurrences_is_issue.
  - apply occurrences_repo_qualifier.
Qed.

(** C8, as amended.  A list request whose [q] is true, that is present and
    not empty, goes to the search view with that [q] when the caller is
    authenticated, and then no call lists the issues; it aborts with 404 and
    no call when the caller is anonymous.  A request whose [q] is absent or
    empty passes its params to one call that lists the issues. *)
Theorem list_issues_dispatch req log :
  (forall u, g_user req = Some u ->
             truthy (md_get "q" (args req)) = true ->
     proxy_issues config upstream normalize_api_params req log
       = get_search_results config upstream normalize_api_params req (md_get "q" (args req)) (Some (args req)) log /\
     (forall q, md_get "q" (args req) = Some (PStr q) ->
        proxy_issues config upstream normalize_api_params req log
          = (upstream (Some u) (search_call config normalize_api_params q (args req)),
             log ++ [search_call config normalize_api_params q (args req)])) /\
     (forall c, c ∈ (proxy_issues config upstream normalize_api_params req log).2 ->
        c ∈ log \/
        (c_path c = "search/issues"%string /\
         c_path c ≠ c_path (issues_list_call config (args req))))) /\
  (g_user req = None ->
   truthy (md_get "q" (args req)) = true ->
   proxy_issues config upstream normalize_api_params req log = (Abort 404, log)) /\
  (truthy (md_get "q" (args req)) = false ->
   proxy_issues config upstream normalize_api_params req log
     = (upstream (g_user req) (issues_list_call config (args req)),
        log ++ [issues_list_call config (args req)])).
Proof.
  unfold proxy_issues, md_copy. split; [| split].
  - intros u Hu Hq. rewrite Hq.
    rewrite (bool_decide_eq_true_2 (is_Some (g_user req))) by (by rewrite Hu).
    simpl. split; [reflexivity |]. split.
    + intros q Hget. rewrite Hget in Hq. simpl in Hq.
      apply negb_true_iff, bool_decide_eq_false in Hq.
      assert (params_or (Some (args req)) (args req) = args req) as Hparams.
      { unfold params_or. by rewrite (md_get_truthy "q" (PStr q)). }
      rewrite (get_search_results_run req (md_get "q" (args req))
                 (Some (args req)) q log).
      * by rewrite Hparams, Hu.
      * rewrite Hparams, Hget. unfold query_or. by rewrite truthy_str.
      * exact Hq.
    + intros c Hc. apply get_search_results_journal in Hc as [Hc | Hc];
        [by left | right].
      split; [exact Hc |]. rewrite Hc. apply search_path_not_issues_list.
  - intros Hu Hq. rewrite Hq, Hu.
    rewrite (bool_decide_eq_false_2 (is_Some None)) by (by intros [? ?]).
    reflexivity.
  - intros Hq. rewrite Hq, andb_false_r. reflexivity.
Qed.

End SearchSpec.

Lemma search_query_qualifiers_witness :
  get_search_results sample_config (sample_upstream ok_response) sample_normalize
    anonymous_search None None []
    = (Return ok_response,
       [mkCall "get" "search/issues"
               (Some {[ "q"%string := [PStr "foo repo:org/repo is:issue"] ]})
               None (Some JSON_MIME_HTML)]) /\
  search_query sample_config "foo" = "foo repo:org/repo is:issue"%string /\
  occurrences "is:issue" (search_query sample_config "foo") = 1%nat /\
  occurrences "repo:org/repo" (search_query sample_config "foo") = 1%nat.
Proof.
  destruct (search_query_qualifiers sample_config (sample_upstream ok_response)
              sample_normalize anonymous_search None None "foo" [])
    as (Hrun & Hshape & Hissue & Hrepo); [reflexivity | discriminate |].
  split; [exact Hrun |]. split; [exact Hshape |]. split; [exact Hissue |].
  exact (Hrepo eq_refl).
Defined.

(** C5, counterexample: a query that already holds ['is:issue'] goes
    upstream with two of them. *)
Lemma search_query_repeats_qualifier :
  get_search_results sample_config (sample_upstream ok_response) sample_normalize
    anonymous_search_issues_only None None []
    = (Return ok_response,
       [mkCall "get" "search/issues"
               (Some {[ "q"%string := [PStr "foo is:issue repo:org/repo is:issue"] ]})
               None (Some JSON_MIME_HTML)]) /\
  occurrences "is:issue" "foo is:issue repo:org/repo is:issue" = 2%nat.
Proof. split; reflexivity. Qed.

Lemma list_issues_dispatch_witness :
  proxy_issues sample_config (sample_upstream ok_response) sample_normalize
    alice_search []
    = (Return ok_response,
       [search_call sample_config sample_normalize "foo" (args alice_search)]) /\
  proxy_issues sample_config (sample_upstream ok_response) sample_normalize
    anonymous_search [] = (Abort 404, []) /\
  proxy_issues sample_config (sample_upstream ok_response) sample_normalize
    anonymous_get []
    = (Return ok_response, [issues_list_call sample_config ∅]).
Proof.
  split; [| split].
  - apply (proj1 (proj2 (proj1 (list_issues_dispatch sample_config
             (sample_upstream ok_response) sample_normalize alice_search [])
             sample_user eq_refl eq_refl)) "foo" eq_refl).
  - apply (proj1 (proj2 (list_issues_dispatch sample_config
             (sample_upstream ok_response) sample_normalize anonymous_search []))
             eq_refl eq_refl).
  - apply (proj2 (proj2 (list_issues_dispatch sample_config
             (sample_upstream ok_response) sample_normalize anonymous_get []))
             eq_refl).
Defined.

(** C8, counterexample: an anonymous request that carries an empty [q] is
    not answered with 404; it lists the issues. *)
Lemma list_issues_empty_q_listed :
  args anonymous_empty_q !! "q"%string = Some [PStr ""] /\
  proxy_issues sample_config (sample_upstream ok_response) sample_normalize
    anonymous_empty_q []
    = (Return ok_response,
       [issues_list_call sample_config {[ "q"%string := [PStr ""] ]}]) /\
  proxy_issues sample_config (sample_upstream ok_response) sample_normalize
    anonymous_empty_q [] ≠ (Abort 404, []).
Proof. split; [reflexivity |]. split; [reflexivity | discriminate]. Qed.

(** ** Edits: [edit_issue] *)

Section EditSpec.

Context (config : AppConfig).
Context (upstream : option User -> Call -> outcome Response).
Context (json_loads : string -> outcome pyval).

(** The membership test of the view is membership in the configured
    statuses. *)
Lemma data_check_in_allowed milestone state :
  data_check_in (milestone, state) (valid_statuses config) = true
  <-> status_pair_allowed config milestone state.
Proof.
  unfold data_check_in, valid_statuses, status_pair_allowed.
  rewrite existsb_exists. split.
  - intros ([z t] & Hin & Heq).
    apply list_elem_of_In, list_elem_of_fmap in Hin as ([name st] & Hpair & Hin).
    apply elem_of_map_to_list in Hin. simpl in Hpair. injection Hpair as -> ->.
    apply andb_true_iff in Heq as [Hm Hs]. by exists name, st.
  - intros (name & st & Hst & Hm & Hs). exists (sd_id st, sd_state st). split.
    + apply list_elem_of_In, list_elem_of_fmap. exists (name, st).
      split; [reflexivity | by apply elem_of_map_to_list].
    + simpl. by rewrite Hm, Hs.
Qed.

(** For a well-typed request, an integer and a string, that is an entry of
    the table with this very id and state. *)
Lemma status_pair_allowed_typed (z : Z) (t : string) :
  status_pair_allowed config (VInt z) (VStr t)
  <-> exists name, STATUSES config !! name = Some (mkStatus z t).
Proof.
  unfold status_pair_allowed. split.
  - intros (name & [i st] & Hst & Hm & Hs). simpl in Hm, Hs.
    apply Z.eqb_eq in Hm. apply bool_decide_eq_true in Hs. subst. by exists name.
  - intros (name & Hst). exists name, (mkStatus z t). split; [exact Hst |].
    simpl. split; [apply Z.eqb_refl | by apply bool_decide_eq_true].
Qed.

(** An authenticated edit whose body is an object with both keys: forwarded
    when the pair is listed and the object has two keys, 403 otherwise. *)
Lemma edit_issue_run req number log u d milestone state :
  g_user req = Some u ->
  json_loads (data req) = Return (VDict d) ->
  d !! "milestone"%string = Some milestone ->
  d !! "state"%string = Some state ->
  edit_issue config upstream json_loads req number log =
    if data_check_in (milestone, state) (valid_statuses config)
       && (Z.of_nat (size d) =? 2)
    then (obind (upstream (Some u) (edit_patch_call config req number)) edit_response,
          log ++ [edit_patch_call config req number])
    else (Abort 403, log).
Proof.
  intros Hu Hjson Hm Hs. unfold edit_issue, api_request. rewrite Hu.
  unfold bind at 1. unfold lift at 1. rewrite Hjson.
  unfold bind at 1. unfold lift at 1. simpl py_getitem. rewrite Hm.
  unfold bind at 1. unfold lift at 1. rewrite Hs.
  destruct (data_check_in (milestone, state) (valid_statuses config)); [| reflexivity].
  unfold bind at 1. unfold lift at 1. simpl py_len. cbv iota beta.
  destruct (Z.of_nat (size d) =? 2); [| reflexivity].
  unfold bind, edit_patch_call. simpl.
  by destruct (upstream (Some u) _).
Qed.

Lemma journal_grows (log : list Call) (c : Call) : log ≠ log ++ [c].
Proof.
  intros Heq. apply (f_equal length) in Heq. rewrite length_app in Heq.
  simpl in Heq. lia.
Qed.

(** C2.  For an authenticated edit whose body decodes to an object with the
    keys ['milestone'] and ['state']: the body goes upstream, in one PATCH,
    exactly when the object has two keys and the pair is among the
    configured statuses; otherwise the view aborts with 403 and the journal
    is unchanged. *)
Theorem edit_issue_forwarded_iff req number log u d milestone state :
  g_user req = Some u ->
  json_loads (data req) = Return (VDict d) ->
  d !! "milestone"%string = Some milestone ->
  d !! "state"%string = Some state ->
  ((edit_issue config upstream json_loads req number log).2 = log ++ [edit_patch_call config req number]
   <-> size d = 2%nat /\ status_pair_allowed config milestone state) /\
  (size d = 2%nat /\ status_pair_allowed config milestone state ->
   edit_issue config upstream json_loads req number log
     = (obind (upstream (Some u) (edit_patch_call config req number)) edit_response,
        log ++ [edit_patch_call config req number])) /\
  (~ (size d = 2%nat /\ status_pair_allowed config milestone state) ->
   edit_issue config upstream json_loads req number log = (Abort 403, log)).
Proof.
  intros Hu Hjson Hm Hs.
  rewrite (edit_issue_run req number log u d milestone state Hu Hjson Hm Hs).
  rewrite <- data_check_in_allowed.
  pose proof (journal_grows log (edit_patch_call config req number)) as Hgrow.
  destruct (data_check_in (milestone, state) (valid_statuses config));
    destruct (Z.eqb_spec (Z.of_nat (size d)) 2) as [Hsz | Hsz]; simpl;
    intuition (try reflexivity; try congruence; try lia).
Qed.

(** The three ways a decoded body fails the subscripts. *)
Lemma edit_issue_not_object req number log u v :
  g_user req = Some u ->
  json_loads (data req) = Return v ->
  (forall d, v ≠ VDict d) ->
  edit_issue config upstream json_loads req number log = (Raise TypeError, log).
Proof.
  intros Hu Hjson Hv. unfold edit_issue. rewrite Hu.
  unfold bind, lift. rewrite Hjson.
  destruct v; try reflexivity. by destruct (Hv d).
Qed.

Lemma edit_issue_no_milestone req number log u d :
  g_user req = Some u ->
  json_loads (data req) = Return (VDict d) ->
  d !! "milestone"%string = None ->
  edit_issue config upstream json_loads req number log = (Raise (KeyError "milestone"), log).
Proof.
  intros Hu Hjson Hm. unfold edit_issue. rewrite Hu.
  unfold bind, lift. rewrite Hjson. simpl. by rewrite Hm.
Qed.

Lemma edit_issue_no_state req number log u d milestone :
  g_user req = Some u ->
  json_loads (data req) = Return (VDict d) ->
  d !! "milestone"%string = Some milestone ->
  d !! "state"%string = None ->
  edit_issue config upstream json_loads req number log = (Raise (KeyError "state"), log).
Proof.
  intros Hu Hjson Hm Hs. unfold edit_issue. rewrite Hu.
  unfold bind, lift. rewrite Hjson. simpl. by rewrite Hm, Hs.
Qed.

(** C10.  For an authenticated edit whose body decodes, but not to an object
    with both keys, the view ends in an uncaught [TypeError] or [KeyError]
    with the journal unchanged, and so not in 403; a 403 from the view means
    the body is an object with both keys. *)
Theorem edit_issue_missing_key_raises req number log u v :
  g_user req = Some u ->
  json_loads (data req) = Return v ->
  ((forall d, v = VDict d ->
      d !! "milestone"%string = None \/ d !! "state"%string = None) ->
   exists e,
     edit_issue config upstream json_loads req number log = (Raise e, log) /\
     (e = TypeError \/ e = KeyError "milestone" \/ e = KeyError "state")) /\
  (forall log', edit_issue config upstream json_loads req number log = (Abort 403, log') ->
   exists d milestone state,
     v = VDict d /\ d !! "milestone"%string = Some milestone /\
     d !! "state"%string = Some state).
Proof.
  intros Hu Hjson.
  assert ((exists d, v = VDict d) \/ (forall d, v ≠ VDict d)) as [[d ->] | Hv].
  { destruct v; try (right; discriminate). left. by eexists. }
  - destruct (d !! "milestone"%string) as [milestone |] eqn:Hm.
    + destruct (d !! "state"%string) as [state |] eqn:Hs.
      * split.
        -- intros Hmissing. destruct (Hmissing d eq_refl); congruence.
        -- intros log' _. by exists d, milestone, state.
      * rewrite (edit_issue_no_state req number log u d milestone Hu Hjson Hm Hs).
        split; [| discriminate].
        intros _. exists (KeyError "state"). split; [reflexivity | by right; right].
    + rewrite (edit_issue_no_milestone req number log u d Hu Hjson Hm).
      split; [| discriminate].
      intros _. exists (KeyError "milestone"). split; [reflexivity | by right; left].
  - rewrite (edit_issue_not_object req number log u v Hu Hjson Hv).
    split; [| discriminate].
    intros _. exists TypeError. split; [reflexivity | by left].
Qed.

End EditSpec.

Lemma edit_issue_forwarded_iff_witness :
  sample_edit_issue (alice_patch "{'milestone': 2, 'state': 'open'}") 7 []
    = (Return (mkResponse "[]" 200 {[ "content-type"%string := JSON_MIME_HTML ]}),
       [edit_patch_call sample_config
          (alice_patch "{'milestone': 2, 'state': 'open'}") 7]) /\
  sample_edit_issue (alice_patch "{'milestone': 2, 'state': 'closed'}") 7 []
    = (Abort 403, []) /\
  sample_edit_issue (alice_patch "{'milestone': 2, 'state': 'open', 'extra': 1}") 7 []
    = (Abort 403, []).
Proof.
  split; [| split].
  - destruct (edit_issue_forwarded_iff sample_config (sample_upstream ok_response)
                sample_json_loads
                (alice_patch "{'milestone': 2, 'state': 'open'}") 7 [] sample_user
                {[ "milestone"%string := VInt 2; "state"%string := VStr "open" ]}
                (VInt 2) (VStr "open") eq_refl eq_refl eq_refl eq_refl)
      as (_ & Hforwarded & _).
    apply Hforwarded. split; [reflexivity |].
    exists "actionable"%string, (mkStatus 2 "open"). repeat split.
  - destruct (edit_issue_forwarded_iff sample_config (sample_upstream ok_response)
                sample_json_loads
                (alice_patch "{'milestone': 2, 'state': 'closed'}") 7 [] sample_user
                {[ "milestone"%string := VInt 2; "state"%string := VStr "closed" ]}
                (VInt 2) (VStr "closed") eq_refl eq_refl eq_refl eq_refl)
      as (_ & _ & Hforbidden).
    apply Hforbidden. intros [_ Hallowed].
    apply data_check_in_allowed in Hallowed. vm_compute in Hallowed.
    discriminate Hallowed.
  - destruct (edit_issue_forwarded_iff sample_config (sample_upstream ok_response)
                sample_json_loads
                (alice_patch "{'milestone': 2, 'state': 'open', 'extra': 1}") 7 []
                sample_user
                {[ "milestone"%string := VInt 2; "state"%string := VStr "open";
                   "extra"%string := VInt 1 ]}
                (VInt 2) (VStr "open") eq_refl eq_refl eq_refl eq_refl)
      as (_ & _ & Hforbidden).
    apply Hforbidden. intros [Hsize _]. vm_compute in Hsize. discriminate Hsize.
Defined.

Lemma edit_issue_missing_key_raises_witness :
  (exists e,
     sample_edit_issue (alice_patch "{'milestone': 2}") 7 [] = (Raise e, []) /\
     (e = TypeError \/ e = KeyError "milestone" \/ e = KeyError "state")) /\
  (exists e,
     sample_edit_issue (alice_patch "[2, 'open']") 7 [] = (Raise e, []) /\
     (e = TypeError \/ e = KeyError "milestone" \/ e = KeyError "state")).
Proof.
  split.
  - apply (proj1 (edit_issue_missing_key_raises sample_config
                    (sample_upstream ok_response) sample_json_loads
                    (alice_patch "{'milestone': 2}") 7 [] sample_user
                    (VDict {[ "milestone"%string := VInt 2 ]}) eq_refl eq_refl)).
    intros d Hd. injection Hd as <-. right. reflexivity.
  - apply (proj1 (edit_issue_missing_key_raises sample_config
                    (sample_upstream ok_response) sample_json_loads
                    (alice_patch "[2, 'open']") 7 [] sample_user
                    (VList [VInt 2; VStr "open"]) eq_refl eq_refl)).
    intros d Hd. discriminate Hd.
Defined.

(** * Further properties of the views *)

(** ** The journal, compositionally *)

Lemma adds_none_ret {A} (a : A) : adds_none (ret a).
Proof. by intros log. Qed.

Lemma adds_none_abort {A} code : adds_none (@abort A code).
Proof. by intros log. Qed.

Lemma adds_none_lift {A} (o : outcome A) : adds_none (lift o).
Proof. by intros log. Qed.

Lemma adds_none_md_getitem key (d : MultiDict) : adds_none (md_getitem key d).
Proof. unfold md_getitem. destruct (md_get key d); by intros log. Qed.

Lemma adds_none_bind {A B} (m : M A) (k : A -> M B) :
  adds_none m -> (forall a, adds_none (k a)) -> adds_none (bind m k).
Proof.
  intros Hm Hk log. unfold bind. specialize (Hm log).
  destruct (m log) as [[a | code | e] log']; simpl in *; subst log'; [| done..].
  apply Hk.
Qed.

Lemma adds_one_of_none {A} Q (m : M A) : adds_none m -> adds_at_most_one Q m.
Proof.
  intros Hm log. exists []. rewrite Hm, app_nil_r. repeat split; [simpl; lia | constructor].
Qed.

Lemma adds_one_api_request upstream req meth path params body mime (Q : Call -> Prop) :
  Q (mkCall meth path params body mime) ->
  adds_at_most_one Q (api_request upstream req meth path params body mime).
Proof.
  intros HQ log. exists [mkCall meth path params body mime].
  repeat split; [simpl; lia | by constructor].
Qed.

(** A step that adds nothing, then one that may call. *)
Lemma adds_one_bind_none {A B} Q (m : M A) (k : A -> M B) :
  adds_none m -> (forall a, adds_at_most_one Q (k a)) -> adds_at_most_one Q (bind m k).
Proof.
  intros Hm Hk log. unfold bind. specialize (Hm log).
  destruct (m log) as [[a | code | e] log']; simpl in *; subst log'.
  - apply Hk.
  - exists []. rewrite app_nil_r. repeat split; [simpl; lia | constructor].
  - exists []. rewrite app_nil_r. repeat split; [simpl; lia | constructor].
Qed.

(** A step that may call, then one that adds nothing. *)
Lemma adds_one_bind_one {A B} Q (m : M A) (k : A -> M B) :
  adds_at_most_one Q m -> (forall a, adds_none (k a)) -> adds_at_most_one Q (bind m k).
Proof.
  intros Hm Hk log. unfold bind. destruct (Hm log) as (calls & Hlog & Hlen & HQ).
  destruct (m log) as [[a | code | e] log']; simpl in *; subst log';
    exists calls; repeat split; try done.
  apply Hk.
Qed.

Lemma calls_made_spec {A} Q (m : M A) log :
  adds_at_most_one Q m ->
  (m log).2 = log ++ calls_made m log /\
  (length (calls_made m log) <= 1)%nat /\ Forall Q (calls_made m log).
Proof.
  intros Hm. destruct (Hm log) as (calls & Hlog & Hlen & HQ).
  unfold calls_made. rewrite Hlog, drop_app_length. done.
Qed.

(** Closes a goal [adds_none m] by the shape of [m]. *)
Ltac journal_none :=
  repeat first
    [ progress intros
    | apply adds_none_ret | apply adds_none_abort | apply adds_none_lift
    | apply adds_none_md_getitem | apply adds_none_bind
    | case_match ].

(** Closes a goal [adds_at_most_one Q m] by the shape of [m]; the calls are
    checked against [Q] by [tac]. *)
Ltac journal_one tac :=
  repeat first
    [ progress intros
    | apply adds_one_api_request; tac
    | apply adds_one_bind_none; [solve [journal_none] |]
    | apply adds_one_bind_one; [| solve [journal_none]]
    | apply adds_one_of_none; solve [journal_none]
    | case_match ].

(** ** Every view: at most one call, and none that writes for an anonymous
    caller *)

Section JournalSpec.

Context (config : AppConfig).
Context (upstream : option User -> Call -> outcome Response).
Context (json_loads : string -> outcome pyval).
Context (get_comment_data : string -> outcome string).
Context (get_html_comments : Response -> outcome Response).
Context (get_response_headers : Response -> string -> Headers).
Context (normalize_api_params : MultiDict -> MultiDict).

(** X1.  Whatever the request, the caller, the configuration and the
    upstream's answers, each of the ten views keeps the journal it found and
    adds at most one outbound call to it. *)
Theorem views_add_at_most_one_call req number username parameter issue_category
    query_string params :
  adds_at_most_one (fun _ => True) (proxy_issue config upstream req number) /\
  adds_at_most_one (fun _ => True) (edit_issue config upstream json_loads req number) /\
  adds_at_most_one (fun _ => True)
    (proxy_issues config upstream normalize_api_params req) /\
  adds_at_most_one (fun _ => True) (proxy_autoclosed config upstream req) /\
  adds_at_most_one (fun _ => True)
    (get_user_activity_issues config upstream req username parameter) /\
  adds_at_most_one (fun _ => True)
    (get_issue_category config upstream req issue_category) /\
  adds_at_most_one (fun _ => True)
    (get_search_results config upstream normalize_api_params req query_string params) /\
  adds_at_most_one (fun _ => True)
    (proxy_comments config upstream get_comment_data get_html_comments
       get_response_headers req number) /\
  adds_at_most_one (fun _ => True) (modify_labels config upstream req number) /\
  adds_at_most_one (fun _ => True) (get_repo_labels config upstream req).
Proof.
  unfold proxy_issue, edit_issue, proxy_issues, proxy_autoclosed,
    get_user_activity_issues, get_issue_category, get_search_results,
    proxy_comments, modify_labels, get_repo_labels.
  repeat split; journal_one ltac:(exact I).
Qed.

(** X2.  For an anonymous caller no view sends a write upstream: every call a
    view adds to the journal is a GET. *)
Theorem anonymous_calls_are_gets req number username parameter issue_category
    query_string params :
  g_user req = None ->
  let is_get := fun c => c_method c = "get"%string in
  adds_at_most_one is_get (proxy_issue config upstream req number) /\
  adds_at_most_one is_get (edit_issue config upstream json_loads req number) /\
  adds_at_most_one is_get (proxy_issues config upstream normalize_api_params req) /\
  adds_at_most_one is_get (proxy_autoclosed config upstream req) /\
  adds_at_most_one is_get
    (get_user_activity_issues config upstream req username parameter) /\
  adds_at_most_one is_get (get_issue_category config upstream req issue_category) /\
  adds_at_most_one is_get
    (get_search_results config upstream normalize_api_params req query_string params) /\
  adds_at_most_one is_get
    (proxy_comments config upstream get_comment_data get_html_comments
       get_response_headers req number) /\
  adds_at_most_one is_get (modify_labels config upstream req number) /\
  adds_at_most_one is_get (get_repo_labels config upstream req).
Proof.
  intros Hu is_get.
  unfold proxy_issue, edit_issue, proxy_issues, proxy_autoclosed,
    get_user_activity_issues, get_issue_category, get_search_results,
    proxy_comments, modify_labels, get_repo_labels.
  rewrite Hu.
  rewrite (bool_decide_eq_false_2 (is_Some None)) by (by intros [? ?]).
  rewrite andb_false_r. simpl andb.
  repeat split; journal_one ltac:(reflexivity).
Qed.

End JournalSpec.

Lemma anonymous_calls_are_gets_witness :
  adds_at_most_one (fun c => c_method c = "get"%string)
    (edit_issue sample_config (sample_upstream ok_response) sample_json_loads
       anonymous_post 7) /\
  adds_at_most_one (fun c => c_method c = "get"%string)
    (sample_proxy_comments ok_response anonymous_post 7) /\
  adds_at_most_one (fun c => c_method c = "get"%string)
    (modify_labels sample_config (sample_upstream ok_response) anonymous_post 7).
Proof.
  destruct (anonymous_calls_are_gets sample_config (sample_upstream ok_response)
              sample_json_loads sample_get_comment_data sample_get_html_comments
              sample_get_response_headers sample_normalize
              anonymous_post 7 "alice" "creator" "needsinfo" None None eq_refl)
    as (_ & Hedit & _ & _ & _ & _ & _ & Hcomments & Hlabels & _).
  exact (conj Hedit (conj Hcomments Hlabels)).
Defined.

(** ** Paths: [REPO_PATH], [issue_path], [comments_path], [get_repo_labels] *)

Lemma string_length_app (a b : string) :
  String.length (a +:+ b) = (String.length a + String.length b)%nat.
Proof.
  induction a as [| x a IH]; [reflexivity |].
  change (String x a +:+ b)%string with (String x (a +:+ b)). simpl. by rewrite IH.
Qed.

Lemma substring_0_app (a b : string) :
  String.substring 0 (String.length a) (a +:+ b) = a.
Proof.
  induction a as [| x a IH].
  - simpl. by destruct ("" +:+ b)%string.
  - change (String x a +:+ b)%string with (String x (a +:+ b)). simpl. by rewrite IH.
Qed.

Lemma substring_0_0 (s : string) : String.substring 0 0 s = ""%string.
Proof. by destruct s. Qed.

(** Appending on the right can be undone. *)
Lemma append_inv_tail (c : string) : forall a b : string,
  (a +:+ c = b +:+ c)%string -> a = b.
Proof.
  induction a as [| x a IH]; intros [| y b] Heq; [reflexivity | | |].
  - apply (f_equal String.length) in Heq. rewrite !string_length_app in Heq.
    simpl in Heq. lia.
  - apply (f_equal String.length) in Heq. rewrite !string_length_app in Heq.
    simpl in Heq. lia.
  - change (String x (a +:+ c) = String y (b +:+ c)) in Heq.
    injection Heq as -> Heq. f_equal. by apply IH.
Qed.

Section PathSpec.

Context (config : AppConfig).
Context (upstream : option User -> Call -> outcome Response).

(** X3.  [REPO_PATH] is the configured issues path without its last seven
    characters: for a path [r ++ suffix] with a suffix of seven characters
    (as ['/issues']) it is [r]; for a path of seven characters or fewer it is
    the empty string. *)
Theorem repo_path_strips_suffix :
  (forall r suffix,
     ISSUES_REPO_URI config = (r +:+ suffix)%string ->
     String.length suffix = 7%nat ->
     REPO_PATH config = r) /\
  ((String.length (ISSUES_REPO_URI config) <= 7)%nat ->
   REPO_PATH config = ""%string).
Proof.
  unfold REPO_PATH, ISSUES_PATH. split.
  - intros r suffix -> Hlen. rewrite string_length_app, Hlen.
    replace (String.length r + 7 - 7)%nat with (String.length r) by lia.
    apply substring_0_app.
  - intros Hlen.
    replace (String.length (ISSUES_REPO_URI config) - 7)%nat with 0%nat by lia.
    apply substring_0_0.
Qed.

(** X4.  [get_repo_labels] asks the upstream, once and whoever the caller is,
    for [repos/{r}/labels] with the caller's params, where [r] is the
    configured issues path without its seven-character suffix. *)
Theorem repo_labels_call req log r suffix :
  ISSUES_REPO_URI config = (r +:+ suffix)%string ->
  String.length suffix = 7%nat ->
  get_repo_labels config upstream req log
    = (upstream (g_user req)
         (mkCall "get" ("repos/" +:+ r +:+ "/labels") (Some (args req)) None None),
       log ++ [mkCall "get" ("repos/" +:+ r +:+ "/labels") (Some (args req))
                      None None]).
Proof.
  intros Huri Hlen. unfold get_repo_labels, api_request, md_copy.
  assert (REPO_PATH config = r) as ->; [| reflexivity].
  unfold REPO_PATH, ISSUES_PATH. rewrite Huri, string_length_app, Hlen.
  replace (String.length r + 7 - 7)%nat with (String.length r) by lia.
  apply substring_0_app.
Qed.

(** X5.  Different issue numbers give different upstream paths, for the
    issue and for its comments. *)
Theorem issue_paths_distinct (n m : N) :
  n ≠ m ->
  issue_path config n ≠ issue_path config m /\
  comments_path config n ≠ comments_path config m.
Proof.
  intros Hne. unfold issue_path, comments_path. split; intros Heq; apply Hne.
  - do 3 apply (inj (String.app _)) in Heq. by apply (inj pretty).
  - do 3 apply (inj (String.app _)) in Heq.
    apply append_inv_tail in Heq. by apply (inj pretty).
Qed.

End PathSpec.

Lemma repo_path_strips_suffix_witness :
  REPO_PATH sample_config = "org/repo"%string /\
  REPO_PATH (mkConfig "issues" "" 0 ∅ []) = ""%string.
Proof.
  split.
  - apply (proj1 (repo_path_strips_suffix sample_config) "org/repo" "/issues");
      reflexivity.
  - apply (proj2 (repo_path_strips_suffix (mkConfig "issues" "" 0 ∅ []))).
    simpl. lia.
Defined.

Lemma repo_labels_call_witness :
  get_repo_labels sample_config (sample_upstream ok_response) anonymous_get []
    = (Return ok_response,
       [mkCall "get" "repos/org/repo/labels" (Some ∅) None None]).
Proof.
  apply (repo_labels_call sample_config (sample_upstream ok_response)
           anonymous_get [] "org/repo" "/issues"); reflexivity.
Defined.

Lemma issue_paths_distinct_witness :
  issue_path sample_config 7 ≠ issue_path sample_config 8 /\
  comments_path sample_config 7 ≠ comments_path sample_config 8.
Proof. apply (issue_paths_distinct sample_config 7 8). discriminate. Defined.

(** ** Search without a query, and the redirect from the list view *)

Section SearchRouteSpec.

Context (config : AppConfig).
Context (upstream : option User -> Call -> outcome Response).
Context (normalize_api_params : MultiDict -> MultiDict).

(** X6.  When neither the argument nor the params in force hold a true
    query, the search view aborts with 404 and no call goes out. *)
Theorem search_without_query_not_found req query_string params log :
  truthy (query_or query_string (md_get "q" (params_or params (args req)))) = false ->
  get_search_results config upstream normalize_api_params req query_string params log
    = (Abort 404, log).
Proof.
  intros Hq. unfold get_search_results, md_copy. by rewrite Hq.
Qed.

Lemma params_or_same (d : MultiDict) : params_or (Some d) d = d.
Proof. unfold params_or. by destruct (md_truthy d). Qed.

Lemma query_or_same (q : option param) : query_or q q = q.
Proof. unfold query_or. by destruct (truthy q). Qed.

(** X7.  The redirect of the list view into the search view is the search
    route itself: for an authenticated caller with a true [q], [proxy_issues]
    does what [get_search_results] does when it is reached with no
    arguments, on the same request. *)
Theorem list_issues_redirect_is_search_route req log u :
  g_user req = Some u ->
  truthy (md_get "q" (args req)) = true ->
  proxy_issues config upstream normalize_api_params req log
    = get_search_results config upstream normalize_api_params req None None log.
Proof.
  intros Hu Hq. unfold proxy_issues, md_copy. rewrite Hq, Hu.
  rewrite (bool_decide_eq_true_2 (is_Some (Some u))) by done. simpl andb.
  unfold get_search_results, md_copy.
  rewrite params_or_same, query_or_same. reflexivity.
Qed.

End SearchRouteSpec.

Lemma search_without_query_not_found_witness :
  get_search_results sample_config (sample_upstream ok_response) sample_normalize
    anonymous_empty_q None None [] = (Abort 404, []).
Proof.
  apply (search_without_query_not_found sample_config (sample_upstream ok_response)
           sample_normalize anonymous_empty_q None None []). reflexivity.
Defined.

Lemma list_issues_redirect_is_search_route_witness :
  proxy_issues sample_config (sample_upstream ok_response) sample_normalize
    alice_search []
    = get_search_results sample_config (sample_upstream ok_response)
        sample_normalize alice_search None None [].
Proof.
  apply (list_issues_redirect_is_search_route sample_config
           (sample_upstream ok_response) sample_normalize alice_search []
           sample_user); reflexivity.
Defined.

(** ** Comments: the POST branch and the default page size *)

Section CommentsMoreSpec.

Context (config : AppConfig).
Context (upstream : option User -> Call -> outcome Response).
Context (get_comment_data : string -> outcome string).
Context (get_html_comments : Response -> outcome Response).
Context (get_response_headers : Response -> string -> Headers).

(** X8.  An authenticated POST to the comments route sends what
    [get_comment_data] makes of the body, in one POST with the caller's
    params as they came, and renders the answer; when [get_comment_data]
    aborts or raises, the view ends the same way and nothing goes upstream. *)
Theorem comments_post_authenticated req number log u :
  method req = "POST"%string ->
  g_user req = Some u ->
  (forall comment, get_comment_data (data req) = Return comment ->
     proxy_comments config upstream get_comment_data get_html_comments
       get_response_headers req number log
       = (obind (upstream (Some u)
                   (mkCall "post" (comments_path config number) (Some (args req))
                           (Some comment) (Some JSON_MIME_HTML)))
                get_html_comments,
          log ++ [mkCall "post" (comments_path config number) (Some (args req))
                         (Some comment) (Some JSON_MIME_HTML)])) /\
  (forall code, get_comment_data (data req) = Abort code ->
     proxy_comments config upstream get_comment_data get_html_comments
       get_response_headers req number log = (Abort code, log)) /\
  (forall e, get_comment_data (data req) = Raise e ->
     proxy_comments config upstream get_comment_data get_html_comments
       get_response_headers req number log = (Raise e, log)).
Proof.
  intros Hm Hu. unfold proxy_comments, api_request, md_copy. rewrite Hu.
  rewrite (bool_decide_eq_true_2 _ Hm).
  rewrite (bool_decide_eq_true_2 (is_Some (Some u))) by done. simpl andb. cbv iota.
  unfold bind, lift. repeat split.
  - intros comment ->.
    by destruct (upstream (Some u) _).
  - by intros code ->.
  - by intros e ->.
Qed.

(** X9.  When the caller gives no [per_page], a comments GET goes upstream
    with [per_page] equal to 100, and every other param as the caller gave
    it. *)
Theorem comments_per_page_default req number log :
  method req ≠ "POST"%string \/ g_user req = None ->
  md_get "per_page" (args req) = None ->
  exists out p,
    proxy_comments config upstream get_comment_data get_html_comments
      get_response_headers req number log
      = (out, log ++ [mkCall "get" (comments_path config number) (Some p) None
                             (Some JSON_MIME_HTML)]) /\
    md_get "per_page" p = Some (PInt 100) /\
    (forall key, key ≠ "per_page"%string ->
       md_getlist key p = md_getlist key (args req)).
Proof.
  intros Hget Hnone. eexists _, _. split; [| split].
  - rewrite proxy_comments_get_branch by exact Hget. reflexivity.
  - by apply md_get_add_absent.
  - intros key Hkey. by apply md_getlist_add_ne.
Qed.

End CommentsMoreSpec.

Lemma comments_post_authenticated_witness :
  sample_proxy_comments ok_response alice_post 7 []
    = (Return (mkResponse "<div>[]</div>" 200
                          {[ "content-type"%string := "text/html"%string ]}),
       [mkCall "post" "repos/org/repo/issues/7/comments" (Some ∅)
               (Some "{'body': 'hi'}"%string) (Some JSON_MIME_HTML)]).
Proof.
  apply (proj1 (comments_post_authenticated sample_config
                  (sample_upstream ok_response) sample_get_comment_data
                  sample_get_html_comments sample_get_response_headers
                  alice_post 7 [] sample_user eq_refl eq_refl)).
  reflexivity.
Defined.

Lemma comments_per_page_default_witness :
  exists out p,
    sample_proxy_comments ok_response anonymous_get 7 []
      = (out, [mkCall "get" "repos/org/repo/issues/7/comments" (Some p) None
                      (Some JSON_MIME_HTML)]) /\
    md_get "per_page" p = Some (PInt 100) /\
    (forall key, key ≠ "per_page"%string -> md_getlist key p = md_getlist key ∅).
Proof.
  apply (comments_per_page_default sample_config (sample_upstream ok_response)
           sample_get_comment_data sample_get_html_comments
           sample_get_response_headers anonymous_get 7 []); [by left | reflexivity].
Defined.

(** ** The private listing and the categories *)

Section ListingSpec.

Context (config : AppConfig).
Context (upstream : option User -> Call -> outcome Response).

(** X10.  For an authenticated caller the private listing makes one GET to
    the private repository; the autoclosed milestone is added after any
    milestone the caller gave, and the other params pass unchanged. *)
Theorem private_listing_authenticated req log u :
  g_user req = Some u ->
  exists p,
    proxy_autoclosed config upstream req log
      = (upstream (Some u)
           (mkCall "get" ("repos/" +:+ PRIVATE_REPO_URI config) (Some p) None None),
         log ++ [mkCall "get" ("repos/" +:+ PRIVATE_REPO_URI config) (Some p)
                        None None]) /\
    md_getlist "milestone" p
      = md_getlist "milestone" (args req) ++ [PInt (AUTOCLOSED_MILESTONE_ID config)] /\
    (forall key, key ≠ "milestone"%string ->
       md_getlist key p = md_getlist key (args req)).
Proof.
  intros Hu. unfold proxy_autoclosed, api_request, md_copy, PRIVATE_ISSUES_PATH.
  rewrite Hu. eexists. split; [reflexivity |]. split.
  - apply md_getlist_add.
  - intros key Hkey. by apply md_getlist_add_ne.
Qed.

(** X11.  A category that is listed among the open statuses but has no entry
    in the table of statuses ends the category view in an uncaught
    [KeyError], with no call. *)
Theorem issue_category_unconfigured_raises req issue_category log :
  issue_category ∈ OPEN_STATUSES config ->
  STATUSES config !! issue_category = None ->
  get_issue_category config upstream req issue_category log
    = (Raise (KeyError issue_category), log).
Proof.
  intros Hin Hnone. unfold get_issue_category.
  rewrite bool_decide_eq_true_2 by exact Hin. by rewrite Hnone.
Qed.

(** X15.  The user-activity view touches only the params it sets: a param
    other than [state] and the one named by [parameter] ([labels] for
    ['needsinfo']) goes upstream as the caller gave it. *)
Theorem user_activity_keeps_other_params req username parameter log u :
  g_user req = Some u ->
  exists p,
    get_user_activity_issues config upstream req username parameter log
      = (upstream (Some u) (issues_list_call config p),
         log ++ [issues_list_call config p]) /\
    (forall key,
       key ≠ "state"%string ->
       key ≠ (if bool_decide (parameter = "needsinfo"%string)
              then "labels"%string else parameter) ->
       md_getlist key p = md_getlist key (args req)).
Proof.
  intros Hu. unfold get_user_activity_issues, api_request, md_copy. rewrite Hu.
  eexists. split; [reflexivity |].
  intros key Hstate Hkey. case_bool_decide;
    rewrite md_getlist_setitem_ne by done; by rewrite md_getlist_setitem_ne.
Qed.

End ListingSpec.

Lemma private_listing_authenticated_witness :
  exists p,
    proxy_autoclosed sample_config (sample_upstream ok_response)
      alice_get_milestone_3 []
      = (Return ok_response,
         [mkCall "get" "repos/org/repo-private/issues" (Some p) None None]) /\
    md_getlist "milestone" p = [PStr "3"; PInt 8] /\
    (forall key, key ≠ "milestone"%string ->
       md_getlist key p = md_getlist key (args alice_get_milestone_3)).
Proof.
  apply (private_listing_authenticated sample_config (sample_upstream ok_response)
           alice_get_milestone_3 [] sample_user). reflexivity.
Defined.

Lemma issue_category_unconfigured_raises_witness :
  get_issue_category stale_config (sample_upstream ok_response) anonymous_get
    "actionable" [] = (Raise (KeyError "actionable"), []).
Proof.
  apply (issue_category_unconfigured_raises stale_config
           (sample_upstream ok_response) anonymous_get "actionable" []).
  - apply (bool_decide_eq_true_1 _). reflexivity.
  - reflexivity.
Defined.

Lemma user_activity_keeps_other_params_witness :
  exists p,
    get_user_activity_issues sample_config (sample_upstream ok_response)
      alice_get_milestone_3 "alice" "creator" []
      = (Return ok_response, [issues_list_call sample_config p]) /\
    (forall key,
       key ≠ "state"%string -> key ≠ "creator"%string ->
       md_getlist key p = md_getlist key (args alice_get_milestone_3)).
Proof.
  apply (user_activity_keeps_other_params sample_config
           (sample_upstream ok_response) alice_get_milestone_3 "alice" "creator" []
           sample_user). reflexivity.
Defined.

(** ** Edits: undecodable bodies and the allow-list by type *)

Section EditMoreSpec.

Context (config : AppConfig).
Context (upstream : option User -> Call -> outcome Response).
Context (json_loads : string -> outcome pyval).

(** X12.  When [json.loads] fails on the body of an authenticated edit, the
    view ends in that failure and nothing goes upstream. *)
Theorem edit_issue_undecodable req number log u :
  g_user req = Some u ->
  (forall e, json_loads (data req) = Raise e ->
     edit_issue config upstream json_loads req number log = (Raise e, log)) /\
  (forall code, json_loads (data req) = Abort code ->
     edit_issue config upstream json_loads req number log = (Abort code, log)).
Proof.
  intros Hu. unfold edit_issue. rewrite Hu. unfold bind, lift.
  split; [intros e Hjson | intros code Hjson]; by rewrite Hjson.
Qed.

(** The object [{'milestone': m, 'state': s}] and nothing else. *)
Lemma edit_request_dict (milestone state : pyval) :
  let d : gmap string pyval :=
    {[ "milestone"%string := milestone; "state"%string := state ]} in
  d !! "milestone"%string = Some milestone /\
  d !! "state"%string = Some state /\
  size d = 2%nat.
Proof.
  simpl. split; [| split].
  - apply lookup_insert_eq.
  - rewrite lookup_insert_ne by discriminate. apply lookup_singleton_eq.
  - rewrite map_size_insert_None.
    + by rewrite map_size_singleton.
    + by rewrite lookup_singleton_ne.
Qed.

(** For a boolean milestone the configured id has to be 0 or 1. *)
Lemma status_pair_allowed_bool (b : bool) (t : string) :
  status_pair_allowed config (VBool b) (VStr t)
  <-> exists name, STATUSES config !! name = Some (mkStatus (Z.b2z b) t).
Proof.
  unfold status_pair_allowed. split.
  - intros (name & [i st] & Hst & Hm & Hs). simpl in Hm, Hs.
    apply Z.eqb_eq in Hm. apply bool_decide_eq_true in Hs. subst. by exists name.
  - intros (name & Hst). exists name, (mkStatus (Z.b2z b) t). split; [exact Hst |].
    simpl. split; [apply Z.eqb_refl | by apply bool_decide_eq_true].
Qed.

(** X13.  An authenticated edit whose body is exactly an integer milestone
    and a string state goes upstream, in one PATCH, if and only if the
    table of statuses has an entry with this very id and state. *)
Theorem edit_issue_typed_allow_list req number log u (z : Z) (t : string) :
  g_user req = Some u ->
  json_loads (data req)
    = Return (VDict {[ "milestone"%string := VInt z; "state"%string := VStr t ]}) ->
  (edit_issue config upstream json_loads req number log).2
    = log ++ [edit_patch_call config req number]
  <-> exists name, STATUSES config !! name = Some (mkStatus z t).
Proof.
  intros Hu Hjson.
  destruct (edit_request_dict (VInt z) (VStr t)) as (Hm & Hs & Hsize).
  rewrite (edit_issue_run config upstream json_loads req number log u _ _ _
             Hu Hjson Hm Hs).
  rewrite Hsize. simpl Z.eqb. rewrite andb_true_r.
  rewrite <- status_pair_allowed_typed, <- data_check_in_allowed.
  clear Hm Hs Hsize Hjson.
  destruct (data_check_in _ _); cbn [snd].
  - split; intros _; reflexivity.
  - split; [| discriminate]. intros Hbad. destruct (journal_grows _ _ Hbad).
Qed.

(** X14.  Python's [True == 1] carries over to the allow-list: a body with
    the milestone [true] (or [false]) and a string state goes upstream if
    and only if the table has an entry with the id 1 (or 0) and that
    state. *)
Theorem edit_issue_boolean_milestone req number log u (b : bool) (t : string) :
  g_user req = Some u ->
  json_loads (data req)
    = Return (VDict {[ "milestone"%string := VBool b; "state"%string := VStr t ]}) ->
  (edit_issue config upstream json_loads req number log).2
    = log ++ [edit_patch_call config req number]
  <-> exists name, STATUSES config !! name = Some (mkStatus (Z.b2z b) t).
Proof.
  intros Hu Hjson.
  destruct (edit_request_dict (VBool b) (VStr t)) as (Hm & Hs & Hsize).
  rewrite (edit_issue_run config upstream json_loads req number log u _ _ _
             Hu Hjson Hm Hs).
  rewrite Hsize. simpl Z.eqb. rewrite andb_true_r.
  rewrite <- status_pair_allowed_bool, <- data_check_in_allowed.
  clear Hm Hs Hsize Hjson.
  destruct (data_check_in _ _); cbn [snd].
  - split; intros _; reflexivity.
  - split; [| discriminate]. intros Hbad. destruct (journal_grows _ _ Hbad).
Qed.

End EditMoreSpec.

Lemma edit_issue_undecodable_witness :
  sample_edit_issue (alice_patch "milestone=2") 7 [] = (Raise ValueError, []).
Proof.
  apply (proj1 (edit_issue_undecodable sample_config (sample_upstream ok_response)
                  sample_json_loads (alice_patch "milestone=2") 7 [] sample_user
                  eq_refl)).
  reflexivity.
Defined.

Lemma edit_issue_typed_allow_list_witness :
  (sample_edit_issue (alice_patch "{'milestone': 2, 'state': 'open'}") 7 []).2
    = [edit_patch_call sample_config
         (alice_patch "{'milestone': 2, 'state': 'open'}") 7].
Proof.
  apply (edit_issue_typed_allow_list sample_config (sample_upstream ok_response)
           sample_json_loads (alice_patch "{'milestone': 2, 'state': 'open'}") 7 []
           sample_user 2 "open" eq_refl eq_refl).
  by exists "actionable"%string.
Defined.

Lemma edit_issue_boolean_milestone_witness :
  (edit_issue sample_config (sample_upstream ok_response) bool_json_loads
     (alice_patch "{'milestone': true, 'state': 'open'}") 7 []).2
    = [edit_patch_call sample_config
         (alice_patch "{'milestone': true, 'state': 'open'}") 7].
Proof.
  apply (edit_issue_boolean_milestone sample_config (sample_upstream ok_response)
           bool_json_loads (alice_patch "{'milestone': true, 'state': 'open'}") 7 []
           sample_user true "open" eq_refl eq_refl).
  by exists "needsinfo"%string.
Defined.

(** ** What the views hand back *)

Section RelaySpec.

Context (config : AppConfig).
Context (upstream : option User -> Call -> outcome Response).
Context (json_loads : string -> outcome pyval).
Context (normalize_api_params : MultiDict -> MultiDict).

(** X16.  [edit_issue] returns a response only after it forwarded the body:
    the response has the upstream's content and status code, and for
    headers the one content type of the view, whatever headers the upstream
    sent. *)
Theorem edit_issue_response req number log r log' :
  edit_issue config upstream json_loads req number log = (Return r, log') ->
  exists r0,
    upstream (g_user req) (edit_patch_call config req number) = Return r0 /\
    log' = log ++ [edit_patch_call config req number] /\
    content r = content r0 /\
    status_code r = status_code r0 /\
    headers r = {[ "content-type"%string := JSON_MIME_HTML ]}.
Proof.
  unfold edit_issue, api_request, bind, lift, ret, abort.
  fold (edit_patch_call config req number).
  destruct (g_user req) as [u |]; [| discriminate].
  destruct (json_loads (data req)) as [patch_data | |]; [| discriminate..].
  destruct (py_getitem patch_data "milestone") as [milestone | |]; [| discriminate..].
  destruct (py_getitem patch_data "state") as [state | |]; [| discriminate..].
  destruct (data_check_in _ _); [| discriminate].
  destruct (py_len patch_data) as [n | |]; [| discriminate..].
  destruct (n =? 2); [| discriminate].
  destruct (upstream (Some u) _) as [r0 | |] eqn:Hup; [| discriminate..].
  intros [= <- <-]. by exists r0.
Qed.

(** X17.  The eight views that neither rewrite nor render relay the upstream
    verbatim: each makes no call at all, or makes one call and ends in
    exactly the upstream's outcome for it, errors included. *)
Theorem views_relay_upstream req number username parameter issue_category
    query_string params :
  relays_upstream upstream req (proxy_issue config upstream req number) /\
  relays_upstream upstream req
    (proxy_issues config upstream normalize_api_params req) /\
  relays_upstream upstream req (proxy_autoclosed config upstream req) /\
  relays_upstream upstream req
    (get_user_activity_issues config upstream req username parameter) /\
  relays_upstream upstream req
    (get_issue_category config upstream req issue_category) /\
  relays_upstream upstream req
    (get_search_results config upstream normalize_api_params req query_string params) /\
  relays_upstream upstream req (modify_labels config upstream req number) /\
  relays_upstream upstream req (get_repo_labels config upstream req).
Proof.
  assert (forall qs ps,
            relays_upstream upstream req
              (get_search_results config upstream normalize_api_params req qs ps))
    as Hsearch.
  { intros qs ps log. unfold get_search_results, md_copy.
    destruct (query_or qs _) as [[q | z] |]; simpl.
    - destruct (negb (negb (bool_decide (q = ""%string)))); [by left |].
      unfold bind, lift, param_add_str, md_getitem. rewrite md_get_setitem.
      right. by eexists.
    - destruct (negb (negb (z =? 0))); by left.
    - by left. }
  repeat split; try apply Hsearch; intros log;
    unfold proxy_issue, proxy_issues, proxy_autoclosed, get_user_activity_issues,
      get_issue_category, modify_labels, get_repo_labels, api_request;
    repeat case_match;
    try (by left); try (right; by eexists).
  apply Hsearch.
Qed.

End RelaySpec.

Lemma edit_issue_response_witness :
  exists r0,
    sample_upstream ok_response (Some sample_user)
      (edit_patch_call sample_config
         (alice_patch "{'milestone': 2, 'state': 'open'}") 7) = Return r0 /\
    "[]"%string = content r0 /\
    200 = status_code r0.
Proof.
  destruct (edit_issue_response sample_config (sample_upstream ok_response)
              sample_json_loads
              (alice_patch "{'milestone': 2, 'state': 'open'}") 7 []
              (mkResponse "[]" 200 {[ "content-type"%string := JSON_MIME_HTML ]})
              [edit_patch_call sample_config
                 (alice_patch "{'milestone': 2, 'state': 'open'}") 7]
              eq_refl)
    as (r0 & Hup & _ & Hcontent & Hstatus & _).
  exists r0. exact (conj Hup (conj Hcontent Hstatus)).
Defined.
